(** * WiGLE Matrix bot: command dispatch, API client and response formatting

    A shallow embedding of [wiglebot.py] (class [WigleBot]) and the
    properties of its command router, its API client and its formatters.

    Conventions of the embedding.
    - A Python value decoded from JSON is a [pyval]; a [dict] is a finite map
      from strings, since JSON object keys are strings and the code never
      depends on the insertion order of a dict.
    - A Python [str] is a Rocq [string] whose characters are the code points
      U+0000..U+00FF.
    - Code that can raise returns a [result]; the [try: ... except Exception]
      blocks of the client are the combinator [try_except].
    - The network is an oracle: [session_get] maps a request URL to what the
      HTTP session answers, and [clock] is the value of [int(time.time())].
    - What CPython decides and the repository does not (the text of
      [str(e)], the [repr] of floats and containers, grouping of floats) is
      the interface [PyRuntime]. *)

From Stdlib Require Import ZArith String Ascii List Floats Lia DecimalString.
From stdpp Require Import base option list gmap strings.

Set Warnings "-register-all".
Open Scope string_scope.
Open Scope Z_scope.

(** ** Python values, exceptions and results *)

Inductive pyval : Type :=
| PNone
| PBool (b : bool)
| PInt (z : Z)
| PFloat (f : float)
| PStr (s : string)
| PList (l : list pyval)
| PDict (d : gmap string pyval).

(** The exceptions the modelled code can meet.  All but [CancelledError]
    derive from [Exception]. *)
Inductive exn : Type :=
| AttributeError (type_name attr : string)
| TypeError (detail : string)
| KeyError (key : string)
| IndexError
| ValueError (detail : string)
| TimeoutError
| ClientConnectionError (detail : string)
| JSONDecodeError (detail : string)
| CancelledError.

Definition is_Exception (e : exn) : bool :=
  match e with
  | CancelledError => false
  | _ => true
  end.

Inductive result (A : Type) : Type :=
| Ok (a : A)
| Raise (e : exn).
Arguments Ok {A} a.
Arguments Raise {A} e.

Definition bind {A B : Type} (c : result A) (k : A -> result B) : result B :=
  match c with
  | Ok a => k a
  | Raise e => Raise e
  end.

Declare Scope py_scope.
Delimit Scope py_scope with py.
Notation "'let*' x ':=' c 'in' k" := (bind c (fun x => k))
  (at level 10, x name, c at level 100, k at level 200) : py_scope.
Open Scope py_scope.

Definition raises {A : Type} (c : result A) : Prop :=
  exists e, c = Raise e.

(** What the interpreter supplies. *)
Class PyRuntime : Type := {
  (** [str(e)] of a caught exception *)
  exn_str : exn -> string;
  (** [str(v)] of a float, a list or a dict *)
  py_repr : pyval -> string;
  (** [format(f, ",")] of a float *)
  float_grouped : float -> string
}.

(** ** Strings *)

Definition nl : string := String (ascii_of_nat 10) "".

(** [str.isspace] on one code point below U+0100. *)
Definition is_space (c : ascii) : bool :=
  let n := nat_of_ascii c in
  ((9 <=? n) && (n <=? 13) || (28 <=? n) && (n <=? 32)
   || (n =? 133) || (n =? 160))%nat.

(** [str.lower] on one code point below U+0100. *)
Definition lower_char (c : ascii) : ascii :=
  let n := nat_of_ascii c in
  if ((65 <=? n) && (n <=? 90)
      || (192 <=? n) && (n <=? 222) && negb (n =? 215))%nat
  then ascii_of_nat (n + 32) else c.

Fixpoint lower (s : string) : string :=
  match s with
  | EmptyString => EmptyString
  | String c r => String (lower_char c) (lower r)
  end.

Fixpoint all_space (s : string) : bool :=
  match s with
  | EmptyString => true
  | String c r => is_space c && all_space r
  end.

Fixpoint lstrip (s : string) : string :=
  match s with
  | EmptyString => EmptyString
  | String c r => if is_space c then lstrip r else s
  end.

Fixpoint rstrip (s : string) : string :=
  match s with
  | EmptyString => EmptyString
  | String c r =>
      match rstrip r with
      | EmptyString => if is_space c then EmptyString else String c EmptyString
      | r' => String c r'
      end
  end.

(** [s.strip()] *)
Definition strip (s : string) : string := rstrip (lstrip s).

Fixpoint split_ws_go (tok : string) (s : string) : list string :=
  match s with
  | EmptyString => match tok with EmptyString => [] | _ => [tok] end
  | String c r =>
      if is_space c
      then match tok with
           | EmptyString => split_ws_go EmptyString r
           | _ => tok :: split_ws_go EmptyString r
           end
      else split_ws_go (tok +:+ String c EmptyString) r
  end.

(** [s.split()] *)
Definition split_ws (s : string) : list string := split_ws_go EmptyString s.

(** [s.split(sep)] for a separator of one character. *)
Fixpoint split_on (sep : ascii) (s : string) : list string :=
  match s with
  | EmptyString => [EmptyString]
  | String c r =>
      if Ascii.eqb c sep then EmptyString :: split_on sep r
      else match split_on sep r with
           | [] => [String c EmptyString]
           | h :: t => String c h :: t
           end
  end.

(** [sep.join(parts)] *)
Fixpoint join (sep : string) (parts : list string) : string :=
  match parts with
  | [] => EmptyString
  | [p] => p
  | p :: rest => p +:+ sep +:+ join sep rest
  end.

(** [s[n:]] *)
Fixpoint drop_str (n : nat) (s : string) : string :=
  match n, s with
  | O, _ => s
  | S n', EmptyString => EmptyString
  | S n', String _ r => drop_str n' r
  end.

(** [s[:n]] *)
Fixpoint take_str (n : nat) (s : string) : string :=
  match n, s with
  | O, _ => EmptyString
  | S n', EmptyString => EmptyString
  | S n', String c r => String c (take_str n' r)
  end.

(** [needle in hay] on two strings *)
Fixpoint contains (needle hay : string) : bool :=
  String.prefix needle hay
  || match hay with
     | EmptyString => false
     | String _ r => contains needle r
     end.

(** The characters of a string, as [for c in s] yields them. *)
Fixpoint chars (s : string) : list string :=
  match s with
  | EmptyString => []
  | String c r => String c EmptyString :: chars r
  end.

(** ** Numbers as text *)

(** [str(n)] of an int *)
Definition str_int (n : Z) : string := NilZero.string_of_int (Z.to_int n).

Fixpoint group_rev (k : nat) (digits : list ascii) : list ascii :=
  match digits with
  | [] => []
  | c :: r =>
      match r, k with
      | _ :: _, 2%nat => c :: ","%char :: group_rev 0 r
      | _, _ => c :: group_rev (S k) r
      end
  end.

Definition group_digits (s : string) : string :=
  string_of_list_ascii (rev (group_rev 0 (rev (list_ascii_of_string s)))).

(** [format(n, ",")] of an int *)
Definition grouped_int (n : Z) : string :=
  if n <? 0 then "-" +:+ group_digits (str_int (- n))
  else group_digits (str_int n).

(** [inflect.engine().ordinal(n)] on an int: the number followed by the
    suffix that inflect's table [nth] gives for [n % 100] and, when that is
    not a key of the table, for [n % 10]. *)
Definition ordinal_suffix (n : Z) : string :=
  let h := n mod 100 in
  if (h =? 11) || (h =? 12) || (h =? 13) then "th"
  else match (if h <? 10 then h else n mod 10) with
       | 1 => "st"
       | 2 => "nd"
       | 3 => "rd"
       | _ => "th"
       end.

Definition ordinal (n : Z) : string := str_int n +:+ ordinal_suffix n.

(** ** Operations on Python values *)

Definition type_name (v : pyval) : string :=
  match v with
  | PNone => "NoneType"
  | PBool _ => "bool"
  | PInt _ => "int"
  | PFloat _ => "float"
  | PStr _ => "str"
  | PList _ => "list"
  | PDict _ => "dict"
  end.

(** [bool(v)], the test of [if v:] and of [v and ...] *)
Definition py_truthy (v : pyval) : bool :=
  match v with
  | PNone => false
  | PBool b => b
  | PInt z => negb (z =? 0)
  | PFloat f => negb (PrimFloat.eqb f 0%float)
  | PStr s => negb (String.eqb s "")
  | PList l => match l with [] => false | _ => true end
  | PDict d => negb (bool_decide (d = ∅))
  end.

(** [v.get(key, default)] *)
Definition py_get (v : pyval) (key : string) (default : pyval)
  : result pyval :=
  match v with
  | PDict d => Ok (match d !! key with Some x => x | None => default end)
  | _ => Raise (AttributeError (type_name v) "get")
  end.

(** [v[key]] with a string key *)
Definition py_getitem (v : pyval) (key : string) : result pyval :=
  match v with
  | PDict d => match d !! key with
               | Some x => Ok x
               | None => Raise (KeyError key)
               end
  | PList _ | PStr _ => Raise (TypeError "indices must be integers")
  | _ => Raise (TypeError "object is not subscriptable")
  end.

(** [v[key] = x], giving the updated object *)
Definition py_setitem (v : pyval) (key : string) (x : pyval)
  : result pyval :=
  match v with
  | PDict d => Ok (PDict (<[key := x]> d))
  | PList _ => Raise (TypeError "indices must be integers")
  | _ => Raise (TypeError "object does not support item assignment")
  end.

Definition is_str (s : string) (v : pyval) : bool :=
  match v with
  | PStr t => String.eqb t s
  | _ => false
  end.

(** [needle in v] with a string needle *)
Definition py_in (needle : string) (v : pyval) : result bool :=
  match v with
  | PDict d => Ok (match d !! needle with Some _ => true | None => false end)
  | PList l => Ok (existsb (is_str needle) l)
  | PStr s => Ok (contains needle s)
  | _ => Raise (TypeError "argument is not iterable")
  end.

(** [v.lower()] *)
Definition py_lower (v : pyval) : result string :=
  match v with
  | PStr s => Ok (lower s)
  | _ => Raise (AttributeError (type_name v) "lower")
  end.

(** [v.split("-")] *)
Definition py_split_hyphen (v : pyval) : result (list string) :=
  match v with
  | PStr s => Ok (split_on "-"%char s)
  | _ => Raise (AttributeError (type_name v) "split")
  end.

(** The elements [for x in v] visits.  A dict yields its keys; the order in
    which it does is not modelled. *)
Definition py_iter (v : pyval) : result (list pyval) :=
  match v with
  | PList l => Ok l
  | PStr s => Ok (map PStr (chars s))
  | PDict d => Ok (map (fun kv => PStr (fst kv)) (map_to_list d))
  | _ => Raise (TypeError "object is not iterable")
  end.

(** [v[:10]] *)
Definition py_slice10 (v : pyval) : result pyval :=
  match v with
  | PList l => Ok (PList (take 10 l))
  | PStr s => Ok (PStr (take_str 10 s))
  | PDict _ => Raise (TypeError "unhashable type: 'slice'")
  | _ => Raise (TypeError "object is not subscriptable")
  end.

(** [v += t] with a string [t], giving the new value of [v] *)
Definition py_iadd_str (v : pyval) (t : string) : result pyval :=
  match v with
  | PStr s => Ok (PStr (s +:+ t))
  | PList l => Ok (PList (l ++ map PStr (chars t)))
  | _ => Raise (TypeError "unsupported operand type(s) for +=")
  end.

(** [v != s] with a string [s] *)
Definition py_ne_str (v : pyval) (s : string) : bool := negb (is_str s v).

Section Runtime.
Context `{PyRuntime}.

(** [f"{v}"] *)
Definition py_str (v : pyval) : string :=
  match v with
  | PNone => "None"
  | PBool true => "True"
  | PBool false => "False"
  | PInt z => str_int z
  | PStr s => s
  | PFloat _ | PList _ | PDict _ => py_repr v
  end.

(** [f"{v:,}"] and ["{:,}".format(v)] *)
Definition py_grouped (v : pyval) : result string :=
  match v with
  | PInt z => Ok (grouped_int z)
  | PBool b => Ok (if b then "1" else "0")
  | PFloat f => Ok (float_grouped f)
  | PStr _ => Raise (ValueError "Cannot specify ',' with 's'.")
  | _ => Raise (TypeError "unsupported format string")
  end.

End Runtime.

(** ** The HTTP session and the clock *)

Record response : Type := {
  status : Z;
  (** [await response.json()] *)
  json : result pyval
}.

Record world : Type := {
  (** [int(time.time())] *)
  clock : Z;
  (** [self.session.get(req, headers=headers)] *)
  session_get : string -> result response
}.

(** ** ApiClient *)

(** [{"success": False, "message": msg}] *)
Definition failure (msg : string) : pyval :=
  PDict (<["success" := PBool false]> (<["message" := PStr msg]> ∅)).

(** [try: body  except Exception as e: return handler(e)] *)
Definition try_except (body : result pyval) (handler : exn -> pyval)
  : result pyval :=
  match body with
  | Ok v => Ok v
  | Raise e => if is_Exception e then Ok (handler e) else Raise e
  end.

Section ApiClient.
Context `{PyRuntime}.
Variable w : world.

Definition fetch_wigle_user_stats (username : string) : result pyval :=
  let timestamp := clock w in
  let req := "https://api.wigle.net/api/v2/stats/user?user=" +:+ username
             +:+ "&nocache=" +:+ str_int timestamp in
  try_except
    (let* response := session_get w req in
     if status response =? 404 then Ok (failure "User not found.")
     else if negb (status response =? 200)
     then Ok (failure ("HTTP error " +:+ str_int (status response)))
     else
       let* data := json response in
       let* success := py_get data "success" PNone in
       let* cond :=
         (if py_truthy success then
            let* has_statistics := py_in "statistics" data in
            if has_statistics then
              let* statistics := py_getitem data "statistics" in
              py_in "userName" statistics
            else Ok false
          else Ok false) in
       if cond then
         let* statistics := py_getitem data "statistics" in
         let* userName := py_getitem statistics "userName" in
         let* lowered := py_lower userName in
         if String.eqb lowered (lower username) then
           let* image_url := py_get data "imageBadgeUrl" (PStr "") in
           if py_truthy image_url then
             let* image_url' :=
               py_iadd_str image_url ("?nocache=" +:+ str_int timestamp) in
             py_setitem data "imageBadgeUrl" image_url'
           else Ok data
         else Ok (failure "User not found.")
       else Ok (failure "Invalid data received or user not found."))
    (fun e => failure (exn_str e)).

Definition fetch_wigle_group_rank : result pyval :=
  let timestamp := clock w in
  let req := "https://api.wigle.net/api/v2/stats/group?nocache="
             +:+ str_int timestamp in
  try_except
    (let* response := session_get w req in
     if negb (status response =? 200)
     then Ok (failure ("HTTP error " +:+ str_int (status response)))
     else
       let* data := json response in
       let* success := py_get data "success" PNone in
       let* cond :=
         (if py_truthy success then py_in "groups" data else Ok false) in
       if cond then Ok data
       else Ok (failure "No group data available."))
    (fun e => failure (exn_str e)).

(** The loop [for group in groups: ...] of [fetch_wigle_id]: [Some] of the
    dict the loop returns, or [None] when it runs to its end. *)
Fixpoint find_group (group_name : string) (groups : list pyval)
  : result (option pyval) :=
  match groups with
  | [] => Ok None
  | group :: rest =>
      let* groupName := py_getitem group "groupName" in
      let* lowered := py_lower groupName in
      if String.eqb lowered (lower group_name) then
        let* group_id := py_getitem group "groupId" in
        let url := "https://api.wigle.net/api/v2/group/groupMembers?groupid="
                   +:+ py_str group_id in
        Ok (Some (PDict (<["success" := PBool true]>
                        (<["groupId" := group_id]>
                        (<["url" := PStr url]> ∅)))))
      else find_group group_name rest
  end.

Definition fetch_wigle_id (group_name : string) : result pyval :=
  let timestamp := clock w in
  let req := "https://api.wigle.net/api/v2/stats/group?nocache="
             +:+ str_int timestamp in
  try_except
    (let* response := session_get w req in
     if negb (status response =? 200)
     then Ok (failure ("HTTP error " +:+ str_int (status response)))
     else
       let* data := json response in
       let* success := py_get data "success" PNone in
       if py_truthy success then
         let* groups := py_get data "groups" (PList []) in
         let* items := py_iter groups in
         let* found := find_group group_name items in
         match found with
         | Some r => Ok r
         | None =>
             Ok (failure ("No group named '" +:+ group_name +:+ "' found."))
         end
       else
         let* message := py_getitem data "message" in
         Ok (PDict (<["success" := PBool false]>
                   (<["message" := message]> ∅))))
    (fun e => failure (exn_str e)).

Definition fetch_user_rank (url : string) : result pyval :=
  try_except
    (let* response := session_get w url in
     if negb (status response =? 200) then Ok PNone
     else json response)
    (fun _ => PNone).

(** [[result for result in results if result["userName"] != "anonymous"]] *)
Fixpoint drop_anonymous (results : list pyval) : result (list pyval) :=
  match results with
  | [] => Ok []
  | r :: rest =>
      let* userName := py_getitem r "userName" in
      let* kept := drop_anonymous rest in
      Ok (if py_ne_str userName "anonymous" then r :: kept else kept)
  end.

(** The body shared, word for word, by [fetch_wigle_alltime_rank] and
    [fetch_wigle_month_rank], which differ in the request only. *)
Definition fetch_standings (req : string) : result pyval :=
  try_except
    (let* response := session_get w req in
     if negb (status response =? 200)
     then Ok (failure ("HTTP error " +:+ str_int (status response)))
     else
       let* data := json response in
       let* success := py_get data "success" PNone in
       let* cond :=
         (if py_truthy success then py_in "results" data else Ok false) in
       if cond then
         let* results := py_getitem data "results" in
         let* items := py_iter results in
         let* kept := drop_anonymous items in
         py_setitem data "results" (PList kept)
       else Ok (failure "No rank data available."))
    (fun e => failure (exn_str e)).

Definition fetch_wigle_alltime_rank : result pyval :=
  fetch_standings
    "https://api.wigle.net/api/v2/stats/standings?sort=discovered&pagestart=0".

Definition fetch_wigle_month_rank : result pyval :=
  fetch_standings
    "https://api.wigle.net/api/v2/stats/standings?sort=monthcount&pagestart=0".

End ApiClient.

(** ** Dates: [datetime.strptime(s, "%Y%m%d")] and [strftime("%B %d, %Y")] *)

Definition is_digit (c : ascii) : bool :=
  let n := nat_of_ascii c in ((48 <=? n) && (n <=? 57))%nat.

Definition digit_val (c : ascii) : Z := Z.of_nat (nat_of_ascii c) - 48.

Definition in_range (lo hi : Z) (c : ascii) : bool :=
  is_digit c && (lo <=? digit_val c) && (digit_val c <=? hi).

(** The ways the directive [%m] can match at the head of [s], in the order
    of its pattern [1[0-2]|0[1-9]|[1-9]]: the month and the rest of [s]. *)
Definition month_alts (s : string) : list (Z * string) :=
  match s with
  | EmptyString => []
  | String a r =>
      match r with
      | EmptyString => []
      | String b r' =>
          (if Ascii.eqb a "1" && in_range 0 2 b
           then [(10 + digit_val b, r')] else [])
          ++ (if Ascii.eqb a "0" && in_range 1 9 b
              then [(digit_val b, r')] else [])
      end
      ++ (if in_range 1 9 a then [(digit_val a, r)] else [])
  end.

(** The same for [%d], whose pattern is
    [3[0-1]|[1-2]\d|0[1-9]|[1-9]| [1-9]]. *)
Definition day_alts (s : string) : list (Z * string) :=
  match s with
  | EmptyString => []
  | String a r =>
      match r with
      | EmptyString => []
      | String b r' =>
          (if Ascii.eqb a "3" && in_range 0 1 b
           then [(30 + digit_val b, r')] else [])
          ++ (if in_range 1 2 a && is_digit b
              then [(10 * digit_val a + digit_val b, r')] else [])
          ++ (if Ascii.eqb a "0" && in_range 1 9 b
              then [(digit_val b, r')] else [])
      end
      ++ (if in_range 1 9 a then [(digit_val a, r)] else [])
      ++ match r with
         | EmptyString => []
         | String b r' =>
             if Ascii.eqb a " " && in_range 1 9 b
             then [(digit_val b, r')] else []
         end
  end.

(** The directive [%Y], four digits. *)
Definition year_match (s : string) : option (Z * string) :=
  match s with
  | String a (String b (String c (String d r))) =>
      if is_digit a && is_digit b && is_digit c && is_digit d
      then Some (1000 * digit_val a + 100 * digit_val b
                 + 10 * digit_val c + digit_val d, r)
      else None
  | _ => None
  end.

Definition is_leap (y : Z) : bool :=
  (y mod 4 =? 0) && (negb (y mod 100 =? 0) || (y mod 400 =? 0)).

Definition days_in_month (y m : Z) : Z :=
  match m with
  | 2 => if is_leap y then 29 else 28
  | 4 | 6 | 9 | 11 => 30
  | _ => 31
  end.

Record date : Type := { year : Z; month : Z; day : Z }.

(** [datetime.strptime(s, "%Y%m%d")]: the first match of the pattern, in
    backtracking order, must use up [s] and name a day of the calendar. *)
Definition strptime_Ymd (s : string) : result date :=
  match year_match s with
  | None => Raise (ValueError "time data does not match format")
  | Some (y, r) =>
      match flat_map (fun mr => map (fun dr => (fst mr, fst dr, snd dr))
                                    (day_alts (snd mr)))
                     (month_alts r) with
      | [] => Raise (ValueError "time data does not match format")
      | (m, d, rest) :: _ =>
          match rest with
          | String _ _ => Raise (ValueError "unconverted data remains")
          | EmptyString =>
              if y <? 1 then Raise (ValueError "year is out of range")
              else if days_in_month y m <? d
              then Raise (ValueError "day is out of range for month")
              else Ok {| year := y; month := m; day := d |}
          end
      end
  end.

Definition month_name (m : Z) : string :=
  match m with
  | 1 => "January" | 2 => "February" | 3 => "March" | 4 => "April"
  | 5 => "May" | 6 => "June" | 7 => "July" | 8 => "August"
  | 9 => "September" | 10 => "October" | 11 => "November"
  | _ => "December"
  end.

Definition pad2 (n : Z) : string :=
  if n <? 10 then "0" +:+ str_int n else str_int n.

(** [dt.strftime("%B %d, %Y")]; [%Y] is the year in decimal, four digits
    from the year 1000 on. *)
Definition strftime_BdY (dt : date) : string :=
  month_name (month dt) +:+ " " +:+ pad2 (day dt) +:+ ", "
  +:+ str_int (year dt).

(** [a, _ = parts] *)
Definition unpack2 (parts : list string) : result string :=
  match parts with
  | [a; _] => Ok a
  | _ :: _ :: _ :: _ => Raise (ValueError "too many values to unpack")
  | _ => Raise (ValueError "not enough values to unpack")
  end.

(** ** ResponseFormatter *)

Section Formatter.
Context `{PyRuntime}.

Definition create_user_message (response : pyval) : result string :=
  let* statistics := py_getitem response "statistics" in
  let* username := py_getitem response "user" in
  let* rank := py_getitem response "rank" in
  let* monthRank := py_getitem response "monthRank" in
  let* prevRank := py_getitem statistics "prevRank" in
  let* prevMonthRank := py_getitem statistics "prevMonthRank" in
  let* eventMonthCount := py_getitem statistics "eventMonthCount" in
  let* eventPrevMonthCount := py_getitem statistics "eventPrevMonthCount" in
  let* discoveredWiFiGPS := py_getitem statistics "discoveredWiFiGPS" in
  let* discoveredWiFiGPSPercent :=
    py_getitem statistics "discoveredWiFiGPSPercent" in
  let* discoveredWiFi := py_getitem statistics "discoveredWiFi" in
  let* discoveredCellGPS := py_getitem statistics "discoveredCellGPS" in
  let* discoveredCell := py_getitem statistics "discoveredCell" in
  let* discoveredBtGPS := py_getitem statistics "discoveredBtGPS" in
  let* discoveredBt := py_getitem statistics "discoveredBt" in
  let* totalWiFiLocations := py_getitem statistics "totalWiFiLocations" in
  let* last := py_getitem statistics "last" in
  let* first := py_getitem statistics "first" in
  let* last_parts := py_split_hyphen last in
  let* last_event_date_str := unpack2 last_parts in
  let* first_parts := py_split_hyphen first in
  let* first_event_date_str := unpack2 first_parts in
  let* last_event_datetime := strptime_Ymd last_event_date_str in
  let* first_event_datetime := strptime_Ymd first_event_date_str in
  let last_event_formatted := strftime_BdY last_event_datetime in
  let first_event_formatted := strftime_BdY first_event_datetime in
  let* rank_s := py_grouped rank in
  let* prevRank_s := py_grouped prevRank in
  let* monthRank_s := py_grouped monthRank in
  let* prevMonthRank_s := py_grouped prevMonthRank in
  let* eventMonthCount_s := py_grouped eventMonthCount in
  let* eventPrevMonthCount_s := py_grouped eventPrevMonthCount in
  let* discoveredWiFiGPS_s := py_grouped discoveredWiFiGPS in
  let* discoveredWiFi_s := py_grouped discoveredWiFi in
  let* discoveredCellGPS_s := py_grouped discoveredCellGPS in
  let* discoveredCell_s := py_grouped discoveredCell in
  let* discoveredBtGPS_s := py_grouped discoveredBtGPS in
  let* discoveredBt_s := py_grouped discoveredBt in
  let* totalWiFiLocations_s := py_grouped totalWiFiLocations in
  Ok ("**WiGLE User Stats for '" +:+ py_str username +:+ "'**" +:+ nl
      +:+ "Username: " +:+ py_str username +:+ nl
      +:+ "Rank: " +:+ rank_s +:+ nl
      +:+ "Previous Rank: " +:+ prevRank_s +:+ nl
      +:+ "Monthly Rank: " +:+ monthRank_s +:+ nl
      +:+ "Last Month's Rank: " +:+ prevMonthRank_s +:+ nl
      +:+ "Events This Month: " +:+ eventMonthCount_s +:+ nl
      +:+ "Last Month's Events: " +:+ eventPrevMonthCount_s +:+ nl
      +:+ "Discovered WiFi GPS: " +:+ discoveredWiFiGPS_s +:+ nl
      +:+ "Discovered WiFi GPS Percent: "
      +:+ py_str discoveredWiFiGPSPercent +:+ nl
      +:+ "Discovered WiFi: " +:+ discoveredWiFi_s +:+ nl
      +:+ "Discovered Cell GPS: " +:+ discoveredCellGPS_s +:+ nl
      +:+ "Discovered Cell: " +:+ discoveredCell_s +:+ nl
      +:+ "Discovered BT GPS: " +:+ discoveredBtGPS_s +:+ nl
      +:+ "Discovered BT: " +:+ discoveredBt_s +:+ nl
      +:+ "Total WiFi Locations: " +:+ totalWiFiLocations_s +:+ nl
      +:+ "Last Event: " +:+ last_event_formatted +:+ nl
      +:+ "First Ever Event: " +:+ first_event_formatted +:+ nl).

(** One ranked line,
    [f"{rank}: {name} | Total: {count:,}\n"]. *)
Definition ranking_line (i : Z) (name : pyval) (count_s : string) : string :=
  ordinal i +:+ ": " +:+ py_str name +:+ " | Total: " +:+ count_s +:+ nl.

(** The loop [for i, entry in enumerate(entries, start=i): ...] that the
    four ranking formatters share: they differ in the two keys they read,
    [name_key] and [count_key], and in nothing else. *)
Fixpoint ranking_lines (name_key count_key : string) (i : Z)
  (entries : list pyval) (rankings : string) : result string :=
  match entries with
  | [] => Ok rankings
  | entry :: rest =>
      let* name := py_getitem entry name_key in
      let* count := py_getitem entry count_key in
      let* count_s := py_grouped count in
      ranking_lines name_key count_key (i + 1) rest
        (rankings +:+ ranking_line i name count_s)
  end.

Definition format_group_rankings (groups : pyval) : result string :=
  let rankings := "**WiGLE Group Rankings:**" +:+ nl in
  let* top := py_slice10 groups in
  let* entries := py_iter top in
  ranking_lines "groupName" "discovered" 1 entries rankings.

(** [[user for user in users if "L" not in user["status"]]] *)
Fixpoint drop_locked (users : list pyval) : result (list pyval) :=
  match users with
  | [] => Ok []
  | user :: rest =>
      let* status := py_getitem user "status" in
      let* locked := py_in "L" status in
      let* kept := drop_locked rest in
      Ok (if negb locked then user :: kept else kept)
  end.

Definition format_user_rankings (users : pyval) (group_name : string)
  : result string :=
  let rankings := "**User Rankings for '" +:+ group_name +:+ "':**" +:+ nl in
  let* all_users := py_iter users in
  let* filtered_users := drop_locked all_users in
  ranking_lines "username" "discovered" 1 (take 10 filtered_users) rankings.

Definition format_alltime_rankings (results : pyval) : result string :=
  let rankings := "**WiGLE All-Time User Rankings:**" +:+ nl in
  let* top := py_slice10 results in
  let* entries := py_iter top in
  ranking_lines "userName" "discoveredWiFiGPS" 1 entries rankings.

Definition format_monthly_rankings (results : pyval) : result string :=
  let rankings := "**WiGLE Monthly User Rankings:**" +:+ nl in
  let* top := py_slice10 results in
  let* entries := py_iter top in
  ranking_lines "userName" "eventMonthCount" 1 entries rankings.

Definition get_help_message : string :=
  "**Command List**" +:+ nl
  +:+ "`!user <username>` - Get stats for a WiGLE user." +:+ nl
  +:+ "`!grouprank` - Get WiGLE group rankings." +:+ nl
  +:+ "`!userrank <groupname>` - Get WiGLE user rankings for a group." +:+ nl
  +:+ "`!alltime` - Get WiGLE All-Time user rankings." +:+ nl
  +:+ "`!monthly` - Get WiGLE monthly user rankings." +:+ nl
  +:+ "`!help` - Shows this help message." +:+ nl.

End Formatter.

(** ** CommandRouter *)

(** What the bot does to a room. *)
Inductive action : Type :=
| Typing (room_id : string)
| Send (room_id : string) (message : pyval).

(** A computation that acts on rooms and may raise: the actions done, in
    order, and how it ended. *)
Definition io (A : Type) : Type := (list action * result A)%type.

Definition io_bind {A B : Type} (c : io A) (k : A -> io B) : io B :=
  match c with
  | (done, Ok a) => let (more, r) := k a in ((done ++ more)%list, r)
  | (done, Raise e) => (done, Raise e)
  end.

Notation "'do*' x ':=' c 'in' k" := (io_bind c (fun x => k))
  (at level 10, x name, c at level 100, k at level 200) : py_scope.

Definition lift {A : Type} (r : result A) : io A := ([], r).

Definition send_message (room_id : string) (message : pyval) : io unit :=
  ([Send room_id message], Ok tt).

Definition send_typing_notice (room_id : string) : io unit :=
  ([Typing room_id], Ok tt).

Definition command_prefix : string := "!".

Definition unknown_command : string :=
  "Unknown command. Type !help for available commands.".

(** ["success" in response and response["success"]], as a test *)
Definition is_success (response : pyval) : result bool :=
  let* present := py_in "success" response in
  if present then
    let* success := py_getitem response "success" in
    Ok (py_truthy success)
  else Ok false.

Definition nonempty {A : Type} (l : list A) : bool :=
  match l with [] => false | _ => true end.

Section Router.
Context `{PyRuntime}.
Variable w : world.
(** [self.client.user_id] *)
Variable user_id : string.

(** The reply of the branches that fetch, then format or report. *)
Definition reply (room_id : string) (response : pyval)
  (format : pyval -> result string) (payload_key : option string)
  (fallback : string) : io unit :=
  do* ok := lift (is_success response) in
  if ok then
    do* payload := lift (match payload_key with
                         | Some k => py_getitem response k
                         | None => Ok response
                         end) in
    do* message := lift (format payload) in
    send_message room_id (PStr message)
  else
    do* error_message := lift (py_get response "message" (PStr fallback)) in
    send_message room_id error_message.

Definition message_callback (room_id sender body : string) : io unit :=
  if String.eqb sender user_id then ([], Ok tt)
  else if String.prefix command_prefix body then
    let command_body := strip (drop_str (String.length command_prefix) body) in
    let command_parts := split_ws command_body in
    match command_parts with
    | [] => ([], Raise IndexError)
    | first :: args =>
        let command := lower first in
        if String.eqb command "user" && nonempty args then
          let username := hd "" args in
          do* _ := send_typing_notice room_id in
          do* response := lift (fetch_wigle_user_stats w username) in
          reply room_id response create_user_message None
                "Failed to fetch user stats."
        else if String.eqb command "grouprank" then
          do* _ := send_typing_notice room_id in
          do* response := lift (fetch_wigle_group_rank w) in
          reply room_id response format_group_rankings (Some "groups")
                "Failed to fetch group ranks."
        else if String.eqb command "userrank" && nonempty args then
          let group := join " " args in
          do* _ := send_typing_notice room_id in
          do* response := lift (fetch_wigle_id w group) in
          do* ok := lift (is_success response) in
          if ok then
            do* url := lift (py_get response "url" PNone) in
            (* a [url] that is no string makes [session.get] raise inside
               the [try] of [fetch_user_rank], which then returns [None] *)
            do* group_data :=
              lift (match url with
                    | PStr u => fetch_user_rank w u
                    | _ => Ok PNone
                    end) in
            if py_truthy group_data then
              do* users := lift (py_get group_data "users" (PList [])) in
              do* message := lift (format_user_rankings users group) in
              send_message room_id (PStr message)
            else send_message room_id (PStr "Failed to fetch group data.")
          else
            do* error_message :=
              lift (py_get response "message"
                           (PStr "Failed to fetch group ID.")) in
            send_message room_id error_message
        else if String.eqb command "alltime" then
          do* _ := send_typing_notice room_id in
          do* response := lift (fetch_wigle_alltime_rank w) in
          reply room_id response format_alltime_rankings (Some "results")
                "Failed to fetch user ranks."
        else if String.eqb command "monthly" then
          do* _ := send_typing_notice room_id in
          do* response := lift (fetch_wigle_month_rank w) in
          reply room_id response format_monthly_rankings (Some "results")
                "Failed to fetch monthly rankings."
        else if String.eqb command "help" then
          do* _ := send_typing_notice room_id in
          send_message room_id (PStr get_help_message)
        else send_message room_id (PStr unknown_command)
    end
  else ([], Ok tt).

End Router.


(** ** The life of the bot: [start], [invite_callback], [close], [main] *)

(** The two callbacks [start] registers. *)
Inductive callback : Type := OnRoomMessageText | OnInviteEvent.

(** What the bot does to its host and to the chat client. *)
Inductive step : Type :=
| MakeDirs (path : string)
| Login
| AddEventCallback (cb : callback)
| SyncForever (timeout : Z)
| Join (room_id : string)
| CloseSession
| CloseClient.

(** What [self.client.login] returns. *)
Inductive login_response : Type :=
| LoginError (message : string)
| LoginResponse.

(** The host and the chat client, as oracles: how each call ends. *)
Record host : Type := {
  (** [os.path.exists(self.store_path)] *)
  store_exists : bool;
  (** [os.makedirs(self.store_path)] *)
  makedirs : result unit;
  (** [await self.client.login(matrix_password)] *)
  login : result login_response;
  (** [await self.client.sync_forever(timeout=30000)], when it ends *)
  sync_forever : result unit;
  (** [await self.client.join(room_id)] *)
  join_room : string -> result unit;
  (** [await self.session.close()] *)
  session_close : result unit;
  (** [await self.client.close()] *)
  client_close : result unit
}.

(** The steps taken, in order, and how the computation ended. *)
Definition proc (A : Type) : Type := (list step * result A)%type.

Definition proc_bind {A B : Type} (c : proc A) (k : A -> proc B) : proc B :=
  match c with
  | (done, Ok a) => let (more, r) := k a in ((done ++ more)%list, r)
  | (done, Raise e) => (done, Raise e)
  end.

Notation "'run*' x ':=' c 'in' k" := (proc_bind c (fun x => k))
  (at level 10, x name, c at level 100, k at level 200) : py_scope.

(** One call to the host: the step is taken, and ends as the host says. *)
Definition perform {A : Type} (s : step) (r : result A) : proc A := ([s], r).

Definition store_path : string := "store/".

Definition start (h : host) : proc unit :=
  run* _ := (if store_exists h then ([], Ok tt)
             else perform (MakeDirs store_path) (makedirs h)) in
  run* response := perform Login (login h) in
  match response with
  | LoginError _ => ([], Ok tt)
  | LoginResponse =>
      run* _ := perform (AddEventCallback OnRoomMessageText) (Ok tt) in
      run* _ := perform (AddEventCallback OnInviteEvent) (Ok tt) in
      perform (SyncForever 30000) (sync_forever h)
  end.

Definition close (h : host) : proc unit :=
  run* _ := perform CloseSession (session_close h) in
  perform CloseClient (client_close h).

Definition invite_callback (h : host) (room_id : string) : proc unit :=
  perform (Join room_id) (join_room h room_id).

(** [main], once the bot is constructed:
    [try: await bot.start()  except Exception: log  finally: await bot.close()]. *)
Definition main (h : host) : proc unit :=
  let (started, r) := start h in
  let (closed, r') := close h in
  ((started ++ closed)%list,
   match r' with
   | Raise e' => Raise e'
   | Ok _ =>
       match r with
       | Ok _ => Ok tt
       | Raise e => if is_Exception e then Ok tt else Raise e
       end
   end).
(** * Vocabulary of the properties *)

(** ** CommandRouter *)

(** The six verbs of the dispatch. *)
Definition recognized_verbs : list string :=
  ["user"; "grouprank"; "userrank"; "alltime"; "monthly"; "help"].

(** ** ApiClient *)

(** The requests the client builds. *)
Definition user_stats_request (w : world) (username : string) : string :=
  "https://api.wigle.net/api/v2/stats/user?user=" +:+ username
  +:+ "&nocache=" +:+ str_int (clock w).

Definition group_request (w : world) : string :=
  "https://api.wigle.net/api/v2/stats/group?nocache=" +:+ str_int (clock w).

Definition member_listing_url (group_id : string) : string :=
  "https://api.wigle.net/api/v2/group/groupMembers?groupid=" +:+ group_id.

(** The session answers [req] with HTTP 200 and the JSON object [d]. *)
Definition answers_object (w : world) (req : string)
  (d : gmap string pyval) : Prop :=
  exists resp, session_get w req = Ok resp /\ status resp = 200
               /\ json resp = Ok (PDict d).

(** A 200 body that does not carry the profile of [username]: the success
    flag or the statistics object is missing, or the statistics have no
    [userName], or one that differs from [username] when both are
    lowercased. *)
Inductive unmatched_profile (username : string) (d : gmap string pyval)
  : Prop :=
| no_success_flag : d !! "success" = None -> unmatched_profile username d
| no_statistics : d !! "statistics" = None -> unmatched_profile username d
| no_userName (st : gmap string pyval) :
    d !! "statistics" = Some (PDict st) -> st !! "userName" = None ->
    unmatched_profile username d
| other_userName (st : gmap string pyval) (u : string) :
    d !! "statistics" = Some (PDict st) ->
    st !! "userName" = Some (PStr u) ->
    lower u <> lower username ->
    unmatched_profile username d.

(** The two standings requests. *)
Inductive standings_sort : Type := Discovered | MonthCount.

Definition standings_request (sort : standings_sort) : string :=
  "https://api.wigle.net/api/v2/stats/standings?sort="
  +:+ match sort with
      | Discovered => "discovered"
      | MonthCount => "monthcount"
      end
  +:+ "&pagestart=0".

Definition fetch_standings_by `{PyRuntime} (w : world)
  (sort : standings_sort) : result pyval :=
  match sort with
  | Discovered => fetch_wigle_alltime_rank w
  | MonthCount => fetch_wigle_month_rank w
  end.

(** The entry's [userName] is the string "anonymous". *)
Definition named_anonymous (entry : pyval) : bool :=
  match py_getitem entry "userName" with
  | Ok u => is_str "anonymous" u
  | Raise _ => false
  end.

(** The group's name equals [name] when both are lowercased. *)
Definition group_named (name : string) (group : pyval) : bool :=
  match py_getitem group "groupName" with
  | Ok (PStr s) => String.eqb (lower s) (lower name)
  | _ => false
  end.

(** A well-formed entry of the group list: a name that is a string, and an
    id. *)
Definition group_entry (group : pyval) : Prop :=
  exists (s : string) (group_id : pyval),
    py_getitem group "groupName" = Ok (PStr s)
    /\ py_getitem group "groupId" = Ok group_id.

(** A transport fault [e] on the request [req]: the request itself raises
    it, or the request is answered with HTTP 200 and reading the body
    raises it. *)
Definition faults (w : world) (req : string) (e : exn) : Prop :=
  session_get w req = Raise e
  \/ exists resp, session_get w req = Ok resp /\ status resp = 200
                  /\ json resp = Raise e.

(** ** ResponseFormatter *)

(** What follows the ordinal on a ranked line. *)
Definition entry_body `{PyRuntime} (name_key count_key : string)
  (entry : pyval) : result string :=
  let* name := py_getitem entry name_key in
  let* count := py_getitem entry count_key in
  let* count_s := py_grouped count in
  Ok (py_str name +:+ " | Total: " +:+ count_s +:+ nl).

Fixpoint entry_bodies `{PyRuntime} (name_key count_key : string)
  (entries : list pyval) : result (list string) :=
  match entries with
  | [] => Ok []
  | entry :: rest =>
      let* body := entry_body name_key count_key entry in
      let* bodies := entry_bodies name_key count_key rest in
      Ok (body :: bodies)
  end.

Definition numbered (rank body : string) : string := rank +:+ ": " +:+ body.

Fixpoint number_from (i : Z) (bodies : list string) : list string :=
  match bodies with
  | [] => []
  | body :: rest => numbered (ordinal i) body :: number_from (i + 1) rest
  end.

Definition text_of_lines (lines : list string) : string :=
  foldr String.append "" lines.

Definition ten_ordinals : list string :=
  ["1st"; "2nd"; "3rd"; "4th"; "5th"; "6th"; "7th"; "8th"; "9th"; "10th"].

(** The member's status is a string that contains the letter L. *)
Definition locked (user : pyval) : bool :=
  match py_getitem user "status" with
  | Ok (PStr s) => contains "L" s
  | _ => false
  end.

(** The four ranking formatters. *)
Inductive ranking : Type :=
| GroupRanking
| UserRanking (group_name : string)
| AllTimeRanking
| MonthlyRanking.

Definition format_ranking `{PyRuntime} (k : ranking) (entries : pyval)
  : result string :=
  match k with
  | GroupRanking => format_group_rankings entries
  | UserRanking group_name => format_user_rankings entries group_name
  | AllTimeRanking => format_alltime_rankings entries
  | MonthlyRanking => format_monthly_rankings entries
  end.

Definition ranking_header (k : ranking) : string :=
  match k with
  | GroupRanking => "**WiGLE Group Rankings:**" +:+ nl
  | UserRanking group_name =>
      "**User Rankings for '" +:+ group_name +:+ "':**" +:+ nl
  | AllTimeRanking => "**WiGLE All-Time User Rankings:**" +:+ nl
  | MonthlyRanking => "**WiGLE Monthly User Rankings:**" +:+ nl
  end.

Definition name_key (k : ranking) : string :=
  match k with
  | GroupRanking => "groupName"
  | UserRanking _ => "username"
  | AllTimeRanking | MonthlyRanking => "userName"
  end.

Definition count_key (k : ranking) : string :=
  match k with
  | GroupRanking | UserRanking _ => "discovered"
  | AllTimeRanking => "discoveredWiFiGPS"
  | MonthlyRanking => "eventMonthCount"
  end.

(** The list a formatter ranks: what it is given, once a user ranking has
    dropped its locked members. *)
Definition ranked `{PyRuntime} (k : ranking) (entries : list pyval)
  : result (list pyval) :=
  match k with
  | UserRanking _ => drop_locked entries
  | _ => Ok entries
  end.

(** ** Event dates *)

Fixpoint all_digits (s : string) : bool :=
  match s with
  | EmptyString => true
  | String c r => is_digit c && all_digits r
  end.

(** The date that eight digits YYYYMMDD write, when they write one: a year
    from 1 on, a month from 1 to 12, a day of that month. *)
Definition ymd_date (s : string) : option date :=
  match s with
  | String y1 (String y2 (String y3 (String y4
      (String m1 (String m2 (String d1 (String d2 EmptyString))))))) =>
      let y := 1000 * digit_val y1 + 100 * digit_val y2
               + 10 * digit_val y3 + digit_val y4 in
      let m := 10 * digit_val m1 + digit_val m2 in
      let d := 10 * digit_val d1 + digit_val d2 in
      if all_digits s && (1 <=? y) && (1 <=? m) && (m <=? 12)
         && (1 <=? d) && (d <=? days_in_month y m)
      then Some {| year := y; month := m; day := d |}
      else None
  | _ => None
  end.

(** The date of an event stamp YYYYMMDD-HHMMSS: eight digits that write a
    date, a hyphen, six digits. *)
Definition stamp_date (s : string) : option date :=
  match drop_str 8 s with
  | String sep time =>
      if Ascii.eqb sep "-" && (String.length time =? 6)%nat
         && all_digits time
      then ymd_date (take_str 8 s)
      else None
  | EmptyString => None
  end.

(** A date field from which [create_user_message] gets a date: a string
    that [split("-")] cuts into two parts, the first accepted by
    [strptime]. *)
Definition date_field_ok (v : pyval) : bool :=
  match v with
  | PStr s =>
      match split_on "-" s with
      | [a; _] => match strptime_Ymd a with Ok _ => true | Raise _ => false end
      | _ => false
      end
  | _ => false
  end.

Definition date_fields_ok (response : pyval) : bool :=
  match py_getitem response "statistics" with
  | Ok statistics =>
      match py_getitem statistics "last", py_getitem statistics "first" with
      | Ok last, Ok first => date_field_ok last && date_field_ok first
      | _, _ => false
      end
  | Raise _ => false
  end.

(** A date field as the claim on malformed dates reads it: exactly one
    hyphen, and before it eight digits that write a date. *)
Definition well_formed_stamp (s : string) : bool :=
  match split_on "-" s with
  | [d; _] => match ymd_date d with Some _ => true | None => false end
  | _ => false
  end.

(** The object [v] has the given items. *)
Definition has_items (v : pyval) (items : list (string * pyval)) : Prop :=
  Forall (fun kv => py_getitem v (fst kv) = Ok (snd kv)) items.

(** A value that [format(v, ",")] renders. *)
Definition numeric `{PyRuntime} (v : pyval) : Prop :=
  exists s, py_grouped v = Ok s.

(** The formatter raises whenever [last] or [first] is not one hyphen
    preceded by eight digits that write a date. *)
Definition raises_on_every_malformed_stamp `{PyRuntime} : Prop :=
  forall (response statistics : pyval) (key s : string),
    key ∈ ["last"; "first"] ->
    py_getitem response "statistics" = Ok statistics ->
    py_getitem statistics key = Ok (PStr s) ->
    well_formed_stamp s = false ->
    raises (create_user_message response).

(** ** What a command does to its room *)

(** A reply and nothing else, or an exception and nothing done. *)
Definition one_reply (room_id : string) (c : io unit) : Prop :=
  (exists m, c = ([Send room_id m], Ok tt))
  \/ (exists e, c = ([], Raise e)).

(** The five ways [message_callback] can end: it did nothing, it answered
    at once, it sent a typing notice and then one message, or it raised,
    before anything or after the typing notice alone. *)
Inductive command_trace (room_id : string) : io unit -> Prop :=
| ignored : command_trace room_id ([], Ok tt)
| answered_at_once (m : pyval) :
    command_trace room_id ([Send room_id m], Ok tt)
| answered (m : pyval) :
    command_trace room_id ([Typing room_id; Send room_id m], Ok tt)
| raised_at_once (e : exn) : command_trace room_id ([], Raise e)
| raised_after_typing (e : exn) :
    command_trace room_id ([Typing room_id], Raise e).

(** The request a verb starts with, for the five verbs that fetch. *)
Definition first_fetch `{PyRuntime} (w : world) (verb : string)
  (args : list string) : option (result pyval) :=
  if String.eqb verb "user" && nonempty args
  then Some (fetch_wigle_user_stats w (hd "" args))
  else if String.eqb verb "grouprank" then Some (fetch_wigle_group_rank w)
  else if String.eqb verb "userrank" && nonempty args
  then Some (fetch_wigle_id w (join " " args))
  else if String.eqb verb "alltime" then Some (fetch_wigle_alltime_rank w)
  else if String.eqb verb "monthly" then Some (fetch_wigle_month_rank w)
  else None.

(** The tokens of a prefixed message body. *)
Definition tokens (body : string) : list string :=
  split_ws (strip (drop_str (String.length command_prefix) body)).

(** * Sample values: a runtime, worlds and payloads *)

#[local] Instance sample_runtime : PyRuntime := {|
  exn_str := fun e =>
    match e with
    | KeyError k => "'" +:+ k +:+ "'"
    | TimeoutError => ""
    | ClientConnectionError d | JSONDecodeError d
    | ValueError d | TypeError d => d
    | AttributeError t a =>
        "'" +:+ t +:+ "' object has no attribute '" +:+ a +:+ "'"
    | IndexError => "list index out of range"
    | CancelledError => ""
    end;
  py_repr := fun _ => "<repr>";
  float_grouped := fun _ => "<float>"
|}.

Definition dict (kvs : list (string * pyval)) : pyval :=
  PDict (list_to_map kvs).

Definition replying (status : Z) (body : pyval) : world :=
  {| clock := 1700000000;
     session_get := fun _ => Ok {| status := status; json := Ok body |} |}.

Definition bot : string := "@wiglebot:example.org".
Definition alice : string := "@alice:example.org".
Definition room : string := "!wardriving:example.org".

(** Every request times out. *)
Definition timing_out : world :=
  {| clock := 1700000000; session_get := fun _ => Raise TimeoutError |}.

Definition bobs_profile : gmap string pyval :=
  list_to_map
    [("success", PBool true);
     ("statistics", dict [("userName", PStr "Bob")])].

Definition standing (userName : string) (discoveredWiFiGPS : Z) : pyval :=
  dict [("userName", PStr userName);
        ("discoveredWiFiGPS", PInt discoveredWiFiGPS);
        ("eventMonthCount", PInt (discoveredWiFiGPS / 100))].

Definition standings_body : gmap string pyval :=
  list_to_map
    [("success", PBool true);
     ("results",
      PList [standing "anonymous" 9000000; standing "carol" 1234567;
             standing "dave" 4321])].

Definition group (groupName groupId : string) (discovered : Z) : pyval :=
  dict [("groupName", PStr groupName); ("groupId", PStr groupId);
        ("discovered", PInt discovered)].

Definition two_groups : list pyval :=
  [group "Alpha Team" "20100101-00001" 5000000;
   group "Foo Bar" "20150607-00042" 1234].

Definition group_list_body : gmap string pyval :=
  list_to_map [("success", PBool true); ("groups", PList two_groups)].

Definition member (username : string) (discovered : Z) (status : string)
  : pyval :=
  dict [("username", PStr username); ("discovered", PInt discovered);
        ("status", PStr status)].

(** Ten members, the second of them locked. *)
Definition ten_members : list pyval :=
  [member "erin" 90000 "A"; member "frank" 80000 "L";
   member "grace" 70000 "A"; member "heidi" 60000 "";
   member "ivan" 50000 "A"; member "judy" 40000 "A";
   member "mallory" 30000 "A"; member "niaj" 20000 "A";
   member "olivia" 10000 "A"; member "peggy" 1234 "A"].

Definition twelve_groups : list pyval :=
  map (fun n => group ("Group " +:+ str_int n) (str_int n) (1000000 - 1000 * n))
      [1; 2; 3; 4; 5; 6; 7; 8; 9; 10; 11; 12].

Definition user_statistics (last first : string) : pyval :=
  dict [("userName", PStr "alice"); ("prevRank", PInt 1300);
        ("prevMonthRank", PInt 60); ("eventMonthCount", PInt 7890);
        ("eventPrevMonthCount", PInt 4567);
        ("discoveredWiFiGPS", PInt 1234567);
        ("discoveredWiFiGPSPercent", PStr "0.01234");
        ("discoveredWiFi", PInt 2345678);
        ("discoveredCellGPS", PInt 321); ("discoveredCell", PInt 654);
        ("discoveredBtGPS", PInt 98765); ("discoveredBt", PInt 123456);
        ("totalWiFiLocations", PInt 34567890);
        ("last", PStr last); ("first", PStr first)].

(** The body of a user-statistics answer for alice. *)
Definition user_payload (last first : string) : pyval :=
  dict [("success", PBool true); ("user", PStr "alice"); ("rank", PInt 1234);
        ("monthRank", PInt 56);
        ("statistics", user_statistics last first)].

(** Every request is cancelled. *)
Definition cancelled : world :=
  {| clock := 1700000000; session_get := fun _ => Raise CancelledError |}.

Definition ok_json (body : pyval) : response :=
  {| status := 200; json := Ok body |}.

(** A session that knows some URLs and cannot reach any other. *)
Definition routed (routes : list (string * response)) : world :=
  {| clock := 1700000000;
     session_get := fun req =>
       match List.find (fun r => String.eqb (fst r) req) routes with
       | Some r => Ok (snd r)
       | None => Raise (ClientConnectionError "Cannot connect to host")
       end |}.

Definition group_list_url : string :=
  "https://api.wigle.net/api/v2/stats/group?nocache=1700000000".

Definition members_body : gmap string pyval :=
  list_to_map [("success", PBool true); ("users", PList ten_members)].

(** The group list is served, the member listings are not. *)
Definition groups_only : world :=
  routed [(group_list_url, ok_json (PDict group_list_body))].

(** The group list and the members of "Foo Bar" are served. *)
Definition groups_and_members : world :=
  routed [(group_list_url, ok_json (PDict group_list_body));
          (member_listing_url "20150607-00042",
           ok_json (PDict members_body))].

(** The dict [fetch_wigle_id] returns for the group "Foo Bar". *)
Definition foo_bar_resolved : pyval :=
  PDict (<["success" := PBool true]>
        (<["groupId" := PStr "20150607-00042"]>
        (<["url" := PStr (member_listing_url "20150607-00042")]> ∅))).

(** A profile of alice with a badge. *)
Definition badged_profile (badge : pyval) : gmap string pyval :=
  list_to_map
    [("success", PBool true); ("user", PStr "alice");
     ("imageBadgeUrl", badge);
     ("statistics", dict [("userName", PStr "Alice")])].

(** A profile that matches alice and has nothing else. *)
Definition bare_profile : gmap string pyval :=
  list_to_map
    [("success", PBool true);
     ("statistics", dict [("userName", PStr "ALICE")])].


(** An answer that is a failure of the service itself. *)
Definition too_many_queries : gmap string pyval :=
  list_to_map [("success", PBool false);
               ("message", PStr "too many queries today")].

(** Standings with an entry that has no name. *)
Definition nameless_standings : gmap string pyval :=
  list_to_map
    [("success", PBool true);
     ("results",
      PList [standing "carol" 1234567;
             dict [("discoveredWiFiGPS", PInt 99)];
             standing "dave" 4321])].

(** A host on which the login is refused. *)
Definition refusing_host : host :=
  {| store_exists := false; makedirs := Ok tt;
     login := Ok (LoginError "M_FORBIDDEN");
     sync_forever := Raise CancelledError;
     join_room := fun _ => Ok tt;
     session_close := Ok tt; client_close := Ok tt |}.

(** * Properties *)

(** ** Text: ordinals, grouping, dates *)

Example ordinal_boundaries :
  map ordinal [1; 2; 3; 4; 11; 12; 13; 21; 22; 101; 111]
  = ["1st"; "2nd"; "3rd"; "4th"; "11th"; "12th"; "13th"; "21st"; "22nd";
     "101st"; "111th"].
Proof. reflexivity. Qed.

Example ordinals_one_to_ten :
  map ordinal [1; 2; 3; 4; 5; 6; 7; 8; 9; 10] = ten_ordinals.
Proof. reflexivity. Qed.

Example grouping_separators :
  map grouped_int [0; 999; 1000; 12345; 1234567; -1234567]
  = ["0"; "999"; "1,000"; "12,345"; "1,234,567"; "-1,234,567"].
Proof. reflexivity. Qed.

Example strptime_takes_short_months_and_days :
  strptime_Ymd "20240304" = Ok {| year := 2024; month := 3; day := 4 |}
  /\ strptime_Ymd "202434" = Ok {| year := 2024; month := 3; day := 4 |}
  /\ strptime_Ymd "2024111" = Ok {| year := 2024; month := 11; day := 1 |}
  /\ strptime_Ymd "202403 4" = Ok {| year := 2024; month := 3; day := 4 |}
  /\ raises (strptime_Ymd "20241311")
  /\ raises (strptime_Ymd "20240230")
  /\ raises (strptime_Ymd "00000101").
Proof. repeat split; try reflexivity; by eexists. Qed.

Example command_parsing :
  split_ws (strip " userrank  Foo   Bar ") = ["userrank"; "Foo"; "Bar"]
  /\ join " " ["Foo"; "Bar"] = "Foo Bar"
  /\ lower "UserRank" = "userrank"
  /\ split_on "-" "20240304-153000" = ["20240304"; "153000"]
  /\ split_on "-" "" = [""].
Proof. repeat split. Qed.

(** ** CommandRouter *)

Lemma lstrip_all_space (s : string) : all_space s = true -> lstrip s = "".
Proof.
  induction s as [|c r IH]; simpl; [done|].
  intros [Hc Hr]%andb_prop. rewrite Hc. auto.
Qed.

Lemma strip_all_space (s : string) : all_space s = true -> strip s = "".
Proof. intros Hs. unfold strip. by rewrite lstrip_all_space. Qed.

Lemma eqb_sender (sender user_id : string) :
  sender <> user_id -> String.eqb sender user_id = false.
Proof. intros Hne. by apply String.eqb_neq. Qed.

Lemma prefix_command_prefix (rest : string) :
  String.prefix command_prefix (command_prefix +:+ rest) = true.
Proof. by destruct rest. Qed.

Section RouterProperties.
Context `{PyRuntime}.
Variable w : world.
Variable user_id : string.

(** C9. A message from someone else whose body is the prefix followed by
    nothing but whitespace (the bare prefix included) makes
    [message_callback] raise [IndexError] at [command_parts[0]]: nothing has
    been sent to the room, and the exception is not handled. *)
Theorem blank_command_raises_IndexError (room_id sender ws : string) :
  sender <> user_id ->
  all_space ws = true ->
  message_callback w user_id room_id sender (command_prefix +:+ ws)
  = ([], Raise IndexError).
Proof.
  intros Hsender Hws. unfold message_callback.
  rewrite (eqb_sender _ _ Hsender).
  rewrite prefix_command_prefix.
  change (drop_str (String.length command_prefix) (command_prefix +:+ ws))
    with ws.
  by rewrite (strip_all_space _ Hws).
Qed.

(** C5. A prefixed message from someone else whose verb, the lowercased
    first token, is none of the six recognized ones, or is [user] or
    [userrank] with no argument, is answered by exactly one message, the
    text "Unknown command. Type !help for available commands.". *)
Theorem unknown_or_argless_command
  (room_id sender body first : string) (args : list string) :
  sender <> user_id ->
  String.prefix command_prefix body = true ->
  split_ws (strip (drop_str (String.length command_prefix) body))
  = first :: args ->
  lower first ∉ recognized_verbs
  \/ (lower first ∈ ["user"; "userrank"] /\ args = []) ->
  message_callback w user_id room_id sender body
  = ([Send room_id
        (PStr "Unknown command. Type !help for available commands.")],
     Ok tt).
Proof.
  intros Hsender Hprefix Hparts Hverb. unfold message_callback.
  rewrite (eqb_sender _ _ Hsender), Hprefix, Hparts.
  destruct Hverb as [Hnot | [Hin ->]].
  - unfold recognized_verbs in Hnot.
    repeat (apply not_elem_of_cons in Hnot as [?%String.eqb_neq Hnot]).
    by repeat match goal with Hx : String.eqb _ _ = false |- _ =>
                rewrite Hx; clear Hx end.
  - repeat (apply elem_of_cons in Hin as [-> | Hin]);
      [done | done | by apply elem_of_nil in Hin].
Qed.

End RouterProperties.

(** ** ApiClient *)

Lemma is_success_failure (msg : string) : is_success (failure msg) = Ok false.
Proof. reflexivity. Qed.

Section ApiClientProperties.
Context `{PyRuntime}.
Variable w : world.

(** C1. When the user-statistics request is answered with HTTP 200 and a
    JSON object that lacks the success flag or the statistics, or whose
    [statistics.userName] is missing or differs from the requested name
    when both are lowercased (whatever its success flag),
    [fetch_wigle_user_stats] returns [{"success": False, "message": m}]
    with [m] one of "User not found." and
    "Invalid data received or user not found."; the router does not take
    that result for a success. *)
Theorem unmatched_profile_is_not_found
  (username : string) (d : gmap string pyval) :
  answers_object w (user_stats_request w username) d ->
  unmatched_profile username d ->
  exists m,
    (m = "User not found."
     \/ m = "Invalid data received or user not found.")
    /\ fetch_wigle_user_stats w username = Ok (failure m)
    /\ is_success (failure m) = Ok false.
Proof.
  intros (resp & Hget & Hstatus & Hjson) Hbody.
  unfold fetch_wigle_user_stats.
  change ("https://api.wigle.net/api/v2/stats/user?user=" +:+ username
          +:+ "&nocache=" +:+ str_int (clock w))
    with (user_stats_request w username).
  rewrite Hget. simpl. rewrite Hstatus, Hjson. simpl.
  destruct Hbody as [Hs | Hst | st Hst Hu | st u Hst Hu Hne].
  - rewrite Hs. simpl. eauto 6.
  - destruct (d !! "success") as [s|]; simpl; [|by eauto 6].
    destruct (py_truthy s); simpl; [|by eauto 6].
    rewrite Hst. simpl. eauto 6.
  - destruct (d !! "success") as [s|]; simpl; [|by eauto 6].
    destruct (py_truthy s); simpl; [|by eauto 6].
    rewrite Hst. simpl. rewrite Hu. simpl. eauto 6.
  - destruct (d !! "success") as [s|]; simpl; [|by eauto 6].
    destruct (py_truthy s); simpl; [|by eauto 6].
    rewrite Hst. simpl. rewrite Hu. simpl.
    apply String.eqb_neq in Hne. rewrite Hne. eauto 6.
Qed.

(** X10. Conversely, whatever the session answers: a result of
    [fetch_wigle_user_stats] that the router takes for a success comes
    from an HTTP 200 whose JSON object has a success flag that holds and
    statistics whose [userName] is a string equal to the requested name when
    both are lowercased.  A body of any other shape is never returned as a
    success. *)
Lemma user_stats_success_is_a_matching_profile
  (username : string) (resp : response) (r : pyval) :
  session_get w (user_stats_request w username) = Ok resp ->
  fetch_wigle_user_stats w username = Ok r ->
  is_success r = Ok true ->
  status resp = 200
  /\ exists (d st : gmap string pyval) (s : pyval) (u : string),
       json resp = Ok (PDict d)
       /\ d !! "success" = Some s /\ py_truthy s = true
       /\ d !! "statistics" = Some (PDict st)
       /\ st !! "userName" = Some (PStr u)
       /\ lower u = lower username.
Proof.
  intros Hget Hfetch Hsuccess.
  unfold fetch_wigle_user_stats in Hfetch.
  change ("https://api.wigle.net/api/v2/stats/user?user=" +:+ username
          +:+ "&nocache=" +:+ str_int (clock w))
    with (user_stats_request w username) in Hfetch.
  rewrite Hget in Hfetch.
  unfold try_except, bind, py_get, py_in, py_getitem, py_lower in Hfetch.
  repeat (case_match; simplify_eq;
          try (rewrite is_success_failure in Hsuccess; discriminate Hsuccess)).
  all: split; [by apply Z.eqb_eq, negb_false_iff|].
  all: do 4 eexists; split_and!;
    first [eassumption | by apply String.eqb_eq | reflexivity].
Qed.

Lemma drop_anonymous_filter (items : list pyval) :
  Forall (fun r => exists u, py_getitem r "userName" = Ok u) items ->
  drop_anonymous items = Ok (List.filter (fun r => negb (named_anonymous r)) items).
Proof.
  induction 1 as [|r rest [u Hu] _ IH]; simpl; [done|].
  rewrite Hu, IH. simpl. unfold named_anonymous, py_ne_str. rewrite Hu.
  by destruct (is_str "anonymous" u).
Qed.

(** C3. When a standings request, all-time or monthly, is answered with
    HTTP 200 and a JSON object whose success flag holds and whose results
    are a list of entries that each have a [userName], the client returns
    that object with its results replaced by the entries whose [userName]
    is not "anonymous", the others kept in their order: this is the
    list handed to the formatter, and the result counts as a success. *)
Theorem standings_drop_anonymous
  (sort : standings_sort) (d : gmap string pyval) (success : pyval)
  (items : list pyval) :
  answers_object w (standings_request sort) d ->
  d !! "success" = Some success ->
  py_truthy success = true ->
  d !! "results" = Some (PList items) ->
  Forall (fun r => exists u, py_getitem r "userName" = Ok u) items ->
  let kept := List.filter (fun r => negb (named_anonymous r)) items in
  let returned := PDict (<["results" := PList kept]> d) in
  fetch_standings_by w sort = Ok returned
  /\ is_success returned = Ok true
  /\ py_getitem returned "results" = Ok (PList kept)
  /\ Forall (fun r => named_anonymous r = false) kept.
Proof.
  intros (resp & Hget & Hstatus & Hjson) Hs Htruthy Hres Hitems kept returned.
  split; [|split; [|split]].
  - assert (Hgen : fetch_standings w (standings_request sort) = Ok returned).
    { unfold fetch_standings. rewrite Hget. simpl. rewrite Hstatus, Hjson.
      simpl. rewrite Hs. simpl. rewrite Htruthy, Hres. simpl.
      by rewrite (drop_anonymous_filter _ Hitems). }
    by destruct sort.
  - unfold returned, is_success, py_in, py_getitem.
    rewrite !lookup_insert_ne, Hs by done. simpl. by rewrite Htruthy.
  - unfold returned. simpl. by rewrite lookup_insert_eq.
  - apply List.Forall_forall. intros r [_ Hr]%filter_In.
    by apply negb_true_iff.
Qed.

Lemma find_group_first_match (name : string) (groups : list pyval) :
  Forall group_entry groups ->
  match List.find (group_named name) groups with
  | Some group =>
      exists group_id,
        py_getitem group "groupId" = Ok group_id
        /\ find_group name groups
           = Ok (Some (PDict
                   (<["success" := PBool true]>
                   (<["groupId" := group_id]>
                   (<["url" := PStr (member_listing_url (py_str group_id))]>
                    ∅)))))
  | None => find_group name groups = Ok None
  end.
Proof.
  induction 1 as [|g rest (s & gid & Hname & Hid) _ IH]; simpl; [done|].
  unfold group_named at 1. rewrite Hname. simpl.
  destruct (String.eqb (lower s) (lower name)); simpl; [|exact IH].
  exists gid. by rewrite Hid.
Qed.

(** C6. When the group-list request is answered with HTTP 200 and a JSON
    object whose success flag holds and whose groups are a list of entries
    with a name and an id, [fetch_wigle_id] compares the requested name
    with each group's name, both lowercased, in the order of the list: for
    the first group that matches it returns that group's id and the
    member-listing URL built from it, and when none matches it returns the
    failure "No group named '<name>' found.". *)
Theorem resolve_group_first_match
  (group_name : string) (d : gmap string pyval) (success : pyval)
  (groups : list pyval) :
  answers_object w (group_request w) d ->
  d !! "success" = Some success ->
  py_truthy success = true ->
  d !! "groups" = Some (PList groups) ->
  Forall group_entry groups ->
  match List.find (group_named group_name) groups with
  | Some group =>
      exists group_id,
        py_getitem group "groupId" = Ok group_id
        /\ fetch_wigle_id w group_name
           = Ok (PDict
                   (<["success" := PBool true]>
                   (<["groupId" := group_id]>
                   (<["url" := PStr (member_listing_url (py_str group_id))]>
                    ∅))))
  | None =>
      fetch_wigle_id w group_name
      = Ok (failure ("No group named '" +:+ group_name +:+ "' found."))
  end.
Proof.
  intros (resp & Hget & Hstatus & Hjson) Hs Htruthy Hgroups Hwf.
  pose proof (find_group_first_match group_name groups Hwf) as Hfind.
  unfold fetch_wigle_id.
  change ("https://api.wigle.net/api/v2/stats/group?nocache="
          +:+ str_int (clock w)) with (group_request w).
  rewrite Hget. simpl. rewrite Hstatus, Hjson. simpl.
  rewrite Hs. simpl. rewrite Htruthy, Hgroups. simpl.
  destruct (List.find (group_named group_name) groups) as [g|].
  - destruct Hfind as (gid & Hid & ->). by exists gid.
  - by rewrite Hfind.
Qed.

Lemma try_except_fault (e : exn) (handler : exn -> pyval) :
  is_Exception e = true -> try_except (Raise e) handler = Ok (handler e).
Proof. intros He. simpl. by rewrite He. Qed.

Lemma try_except_catches (body : result pyval) (handler : exn -> pyval)
  (e : exn) :
  try_except body handler = Raise e -> is_Exception e = false.
Proof.
  destruct body as [v|e']; simpl; [done|].
  destruct (is_Exception e') eqn:He'; [done|]. by intros [= <-].
Qed.

(** X11. Whatever the session answers, no operation of the client lets an
    exception that derives from [Exception] reach its caller. *)
Lemma client_catches_every_Exception
  (username group_name url : string) (e : exn) :
  fetch_wigle_user_stats w username = Raise e
  \/ fetch_wigle_group_rank w = Raise e
  \/ fetch_wigle_id w group_name = Raise e
  \/ fetch_user_rank w url = Raise e
  \/ fetch_wigle_alltime_rank w = Raise e
  \/ fetch_wigle_month_rank w = Raise e ->
  is_Exception e = false.
Proof.
  intros Hraise.
  repeat destruct Hraise as [Hraise | Hraise];
    exact (try_except_catches _ _ _ Hraise).
Qed.

(** C7, as the code has it. When every request meets the transport fault
    [e] (a timeout, a connection failure, a body that is not JSON: any
    exception that derives from [Exception]), the five operations that
    return a dict catch it and return
    [{"success": False, "message": str(e)}], and [fetch_user_rank] catches
    it and returns [None], which carries no message; none of the six lets
    the exception reach its caller. *)
Theorem transport_fault_is_caught
  (e : exn) (username group_name url : string) :
  is_Exception e = true ->
  (forall req, faults w req e) ->
  fetch_wigle_user_stats w username = Ok (failure (exn_str e))
  /\ fetch_wigle_group_rank w = Ok (failure (exn_str e))
  /\ fetch_wigle_id w group_name = Ok (failure (exn_str e))
  /\ fetch_wigle_alltime_rank w = Ok (failure (exn_str e))
  /\ fetch_wigle_month_rank w = Ok (failure (exn_str e))
  /\ fetch_user_rank w url = Ok PNone.
Proof.
  intros He Hfault.
  repeat split;
    match goal with
    | |- ?f = _ =>
        let f' := eval hnf in f in
        match f' with
        | context [session_get w ?req] =>
            unfold fetch_wigle_user_stats, fetch_wigle_group_rank,
              fetch_wigle_id, fetch_wigle_alltime_rank,
              fetch_wigle_month_rank, fetch_standings, fetch_user_rank;
            destruct (Hfault req) as [Hreq | (resp & Hreq & Hstatus & Hjson)];
            rewrite Hreq; simpl;
            [ by rewrite He
            | rewrite Hstatus, Hjson; simpl; by rewrite He ]
        end
    end.
Qed.

End ApiClientProperties.

(** ** ResponseFormatter *)

Lemma append_cons (x : ascii) (a b : string) :
  String x a +:+ b = String x (a +:+ b).
Proof. reflexivity. Qed.

Lemma append_assoc (a b c : string) : (a +:+ b) +:+ c = a +:+ (b +:+ c).
Proof.
  induction a as [|x a IH]; [done|]. by rewrite !append_cons, IH.
Qed.

Lemma append_nil_r (a : string) : a +:+ "" = a.
Proof. induction a as [|x a IH]; [done|]. by rewrite append_cons, IH. Qed.

Lemma digit_char (c : ascii) :
  is_digit c = true ->
  In c ["0"; "1"; "2"; "3"; "4"; "5"; "6"; "7"; "8"; "9"]%char.
Proof.
  destruct c as [[] [] [] [] [] [] [] []]; vm_compute; intros Hc;
    try discriminate Hc; tauto.
Qed.

Lemma digit_not_hyphen (c : ascii) :
  is_digit c = true -> Ascii.eqb c "-" = false.
Proof.
  intros Hc. apply digit_char in Hc. simpl in Hc.
  repeat (destruct Hc as [<- | Hc]; [reflexivity|]). destruct Hc.
Qed.

Lemma split_on_digits (s : string) :
  all_digits s = true -> split_on "-" s = [s].
Proof.
  induction s as [|c r IH]; simpl; [done|].
  intros [Hc Hr]%andb_prop. by rewrite (digit_not_hyphen _ Hc), (IH Hr).
Qed.

Lemma split_on_stamp (a b : string) :
  all_digits a = true -> all_digits b = true ->
  split_on "-" (a +:+ String "-" b) = [a; b].
Proof.
  intros Ha Hb. induction a as [|c r IH].
  - change ("" +:+ String "-"%char b) with (String "-"%char b). simpl.
    by rewrite (split_on_digits _ Hb).
  - simpl in Ha. apply andb_prop in Ha as [Hc Hr].
    rewrite append_cons. simpl.
    by rewrite (digit_not_hyphen _ Hc), (IH Hr).
Qed.

Lemma take_drop_str (n : nat) (s : string) :
  take_str n s +:+ drop_str n s = s.
Proof.
  revert s. induction n as [|n IH]; intros [|c r]; try done.
  simpl. by rewrite append_cons, IH.
Qed.

Lemma month_alts_two_digits (a b : ascii) (r : string) :
  is_digit a = true -> is_digit b = true ->
  1 <= 10 * digit_val a + digit_val b <= 12 ->
  exists tail, month_alts (String a (String b r))
               = (10 * digit_val a + digit_val b, r) :: tail.
Proof.
  intros Ha%digit_char Hb%digit_char.
  simpl in Ha, Hb.
  repeat (destruct Ha as [<- | Ha]); try destruct Ha;
    repeat (destruct Hb as [<- | Hb]); try destruct Hb;
    vm_compute; intros [Hlo Hhi];
    try (by exfalso; apply Hlo); try (by exfalso; apply Hhi);
    by eexists.
Qed.

Lemma day_alts_two_digits (a b : ascii) (r : string) :
  is_digit a = true -> is_digit b = true ->
  1 <= 10 * digit_val a + digit_val b <= 31 ->
  exists tail, day_alts (String a (String b r))
               = (10 * digit_val a + digit_val b, r) :: tail.
Proof.
  intros Ha%digit_char Hb%digit_char.
  simpl in Ha, Hb.
  repeat (destruct Ha as [<- | Ha]); try destruct Ha;
    repeat (destruct Hb as [<- | Hb]); try destruct Hb;
    vm_compute; intros [Hlo Hhi];
    try (by exfalso; apply Hlo); try (by exfalso; apply Hhi);
    by eexists.
Qed.

Lemma days_in_month_le_31 (y m : Z) : days_in_month y m <= 31.
Proof.
  unfold days_in_month.
  repeat match goal with
         | |- context [match ?x with _ => _ end] => destruct x
         end; lia.
Qed.

(** Eight digits that write a date are parsed by [strptime] to that date. *)
Lemma ymd_date_parses (s : string) (dt : date) :
  ymd_date s = Some dt -> all_digits s = true /\ strptime_Ymd s = Ok dt.
Proof.
  unfold ymd_date.
  destruct s as [|y1 [|y2 [|y3 [|y4 [|m1 [|m2 [|d1 [|d2 [|? ?]]]]]]]]];
    try discriminate.
  set (s := String y1 _).
  destruct (all_digits s) eqn:Hdigits; [|discriminate]. simpl.
  repeat match goal with
         | |- context [?a <=? ?b] => destruct (Z.leb_spec a b); simpl
         end; try discriminate.
  intros [= <-]. split; [done|].
  subst s. simpl in Hdigits.
  repeat match type of Hdigits with
         | _ && _ = true => apply andb_prop in Hdigits as [? Hdigits]
         end.
  pose proof (days_in_month_le_31
                (1000 * digit_val y1 + 100 * digit_val y2
                 + 10 * digit_val y3 + digit_val y4)
                (10 * digit_val m1 + digit_val m2)) as H31.
  destruct (month_alts_two_digits m1 m2 (String d1 (String d2 "")))
    as [mtail Hm]; [done | done | lia |].
  destruct (day_alts_two_digits d1 d2 "") as [dtail Hd]; [done | done | lia |].
  unfold strptime_Ymd, year_match.
  repeat match goal with Hx : is_digit _ = true |- _ => rewrite Hx; clear Hx end.
  simpl andb. cbv iota. rewrite Hm. cbn [flat_map fst snd]. rewrite Hd. simpl.
  repeat match goal with
         | |- context [?a <? ?b] => destruct (Z.ltb_spec a b); try lia
         end.
  done.
Qed.

Lemma stamp_date_parses (s : string) (dt : date) :
  stamp_date s = Some dt ->
  exists ds ts, split_on "-" s = [ds; ts] /\ strptime_Ymd ds = Ok dt.
Proof.
  unfold stamp_date. intros Hs.
  destruct (drop_str 8 s) as [|sep time] eqn:Hdrop; [done|].
  destruct (Ascii.eqb_spec sep "-") as [->|]; [|done]. simpl in Hs.
  destruct (String.length time =? 6)%nat; [|done]. simpl in Hs.
  destruct (all_digits time) eqn:Htime; [|done].
  apply ymd_date_parses in Hs as [Hdigits Hparse].
  exists (take_str 8 s), time. split; [|done].
  rewrite <- (take_drop_str 8 s) at 1. rewrite Hdrop.
  by apply split_on_stamp.
Qed.

Lemma ends_with_here (tail : string) : exists head, tail = head +:+ tail.
Proof. by exists "". Qed.

Lemma ends_with_step (a text tail : string) :
  (exists head, text = head +:+ tail) ->
  exists head, a +:+ text = head +:+ tail.
Proof. intros [head ->]. exists (a +:+ head). by rewrite append_assoc. Qed.

Section FormatterProperties.
Context `{PyRuntime}.

Lemma ranking_lines_bodies (nk ck : string) (entries : list pyval) :
  forall (i : Z) (rankings : string),
    ranking_lines nk ck i entries rankings
    = let* bodies := entry_bodies nk ck entries in
      Ok (rankings +:+ text_of_lines (number_from i bodies)).
Proof.
  induction entries as [|entry rest IH]; intros i rankings; simpl.
  - by rewrite append_nil_r.
  - unfold entry_body.
    destruct (py_getitem entry nk) as [name|]; simpl; [|done].
    destruct (py_getitem entry ck) as [count|]; simpl; [|done].
    destruct (py_grouped count) as [count_s|]; simpl; [|done].
    rewrite IH. destruct (entry_bodies nk ck rest) as [bodies|]; simpl; [|done].
    unfold ranking_line, numbered. by rewrite !append_assoc.
Qed.

Lemma entry_bodies_length (nk ck : string) (entries : list pyval) :
  forall bodies, entry_bodies nk ck entries = Ok bodies ->
                 length bodies = length entries.
Proof.
  induction entries as [|entry rest IH]; simpl; intros bodies Hb.
  - by injection Hb as <-.
  - destruct (entry_body nk ck entry) as [b|]; simpl in Hb; [|done].
    destruct (entry_bodies nk ck rest) as [bs|]; simpl in Hb; [|done].
    injection Hb as <-. simpl. f_equal. by apply IH.
Qed.

Lemma number_from_ten (bodies : list string) :
  (length bodies <= 10)%nat ->
  number_from 1 bodies = zip_with numbered ten_ordinals bodies.
Proof.
  intros Hlen.
  do 11 (destruct bodies as [|? bodies]; [reflexivity|]).
  simpl in Hlen. lia.
Qed.

Lemma drop_locked_filter (users : list pyval) :
  Forall (fun u => exists s, py_getitem u "status" = Ok (PStr s)) users ->
  drop_locked users = Ok (List.filter (fun u => negb (locked u)) users).
Proof.
  induction 1 as [|u rest [s Hs] _ IH]; simpl; [done|].
  rewrite Hs, IH. simpl. unfold locked. by rewrite Hs.
Qed.

(** C2. On a list of members whose statuses are strings,
    [format_user_rankings] keeps the members whose status has no L, in
    their order, and ranks the first ten of those: the text is the header
    followed by one numbered line for each of them, so every member shown
    is unlocked, however many locked members stood among the first ten of
    the list it was given. *)
Theorem user_rankings_filter_then_truncate
  (users : list pyval) (group_name : string) :
  Forall (fun u => exists s, py_getitem u "status" = Ok (PStr s)) users ->
  let shown := take 10 (List.filter (fun u => negb (locked u)) users) in
  format_user_rankings (PList users) group_name
  = (let* bodies := entry_bodies "username" "discovered" shown in
     Ok (ranking_header (UserRanking group_name)
         +:+ text_of_lines (number_from 1 bodies)))
  /\ Forall (fun u => locked u = false) shown.
Proof.
  intros Hstatus shown. split.
  - unfold format_user_rankings. simpl.
    rewrite (drop_locked_filter _ Hstatus). simpl.
    by rewrite ranking_lines_bodies.
  - apply List.Forall_forall. intros u Hu%list_elem_of_In.
    apply elem_of_take in Hu as (i & Hu & _).
    apply list_elem_of_lookup_2, list_elem_of_In, filter_In in Hu as [_ Hu].
    by apply negb_true_iff.
Qed.

(** C4. Whichever of the four ranking formatters is used, when the first
    ten entries of the list it ranks (for a user ranking, the list left
    once locked members are dropped) can be rendered, its text is the
    header line followed by one line for each of those entries, numbered
    1st, 2nd, ... in order: ten lines, 1st to 10th, when the list has ten
    entries or more, and as many lines as entries when it is shorter. *)
Theorem rankings_first_to_tenth
  (k : ranking) (entries listed : list pyval) (bodies : list string) :
  ranked k entries = Ok listed ->
  entry_bodies (name_key k) (count_key k) (take 10 listed) = Ok bodies ->
  format_ranking k (PList entries)
  = Ok (ranking_header k
        +:+ text_of_lines (zip_with numbered ten_ordinals bodies))
  /\ length bodies = Nat.min 10 (length listed).
Proof.
  intros Hranked Hbodies.
  assert (Hlen : length bodies = Nat.min 10 (length listed)).
  { rewrite (entry_bodies_length _ _ _ _ Hbodies). apply length_take. }
  split; [|exact Hlen].
  rewrite <- number_from_ten by lia.
  destruct k; simpl in Hranked;
    try (injection Hranked as ->);
    unfold format_ranking, format_group_rankings, format_user_rankings,
      format_alltime_rankings, format_monthly_rankings;
    simpl; rewrite ?Hranked; simpl;
    rewrite ranking_lines_bodies; simpl in Hbodies; by rewrite Hbodies.
Qed.

(** C8. For a user-statistics payload that has every item the message
    shows, with counts that can be rendered, and whose [last] and [first]
    are event stamps YYYYMMDD-HHMMSS, [create_user_message] returns a text
    that ends with the two date lines, each showing the date of the stamp
    alone, as month name, two-digit day and year; for the stamp
    "20240304-153000" that is "March 04, 2024". *)
Theorem user_message_shows_dates
  (response statistics username percent : pyval)
  (rank monthRank prevRank prevMonthRank eventMonthCount eventPrevMonthCount
     discoveredWiFiGPS discoveredWiFi discoveredCellGPS discoveredCell
     discoveredBtGPS discoveredBt totalWiFiLocations : pyval)
  (last first : string) (last_date first_date : date) :
  has_items response
    [("statistics", statistics); ("user", username); ("rank", rank);
     ("monthRank", monthRank)] ->
  has_items statistics
    [("prevRank", prevRank); ("prevMonthRank", prevMonthRank);
     ("eventMonthCount", eventMonthCount);
     ("eventPrevMonthCount", eventPrevMonthCount);
     ("discoveredWiFiGPS", discoveredWiFiGPS);
     ("discoveredWiFiGPSPercent", percent);
     ("discoveredWiFi", discoveredWiFi);
     ("discoveredCellGPS", discoveredCellGPS);
     ("discoveredCell", discoveredCell);
     ("discoveredBtGPS", discoveredBtGPS);
     ("discoveredBt", discoveredBt);
     ("totalWiFiLocations", totalWiFiLocations);
     ("last", PStr last); ("first", PStr first)] ->
  Forall numeric
    [rank; prevRank; monthRank; prevMonthRank; eventMonthCount;
     eventPrevMonthCount; discoveredWiFiGPS; discoveredWiFi;
     discoveredCellGPS; discoveredCell; discoveredBtGPS; discoveredBt;
     totalWiFiLocations] ->
  stamp_date last = Some last_date ->
  stamp_date first = Some first_date ->
  (exists head,
     create_user_message response
     = Ok (head
           +:+ "Last Event: " +:+ month_name (month last_date) +:+ " "
           +:+ pad2 (day last_date) +:+ ", " +:+ str_int (year last_date)
           +:+ nl
           +:+ "First Ever Event: " +:+ month_name (month first_date) +:+ " "
           +:+ pad2 (day first_date) +:+ ", " +:+ str_int (year first_date)
           +:+ nl))
  /\ (last = "20240304-153000" ->
      month_name (month last_date) +:+ " " +:+ pad2 (day last_date) +:+ ", "
      +:+ str_int (year last_date) = "March 04, 2024").
Proof.
  unfold has_items. intros Hresp Hstat Hnum Hlast Hfirst. split.
  - repeat match goal with
           | Hx : Forall _ (_ :: _) |- _ => apply Forall_cons in Hx as [? Hx]
           end.
    repeat match goal with Hx : numeric _ |- _ => destruct Hx as [? Hx] end.
    simpl in *.
    apply stamp_date_parses in Hlast as (ld & lt & Hlsplit & Hlparse).
    apply stamp_date_parses in Hfirst as (fd & ft & Hfsplit & Hfparse).
    unfold create_user_message.
    repeat match goal with
           | Hx : py_getitem _ _ = Ok _ |- _ => rewrite Hx; clear Hx; simpl
           end.
    rewrite Hlsplit, Hfsplit. simpl. rewrite Hlparse, Hfparse. simpl.
    repeat match goal with
           | Hx : py_grouped _ = Ok _ |- _ => rewrite Hx; simpl
           end.
    unfold strftime_BdY.
    match goal with
    | |- exists head, Ok ?text = Ok (head +:+ ?tail) =>
        cut (exists head, text = head +:+ tail);
        [intros [head ->]; by exists head|]
    end.
    rewrite !append_assoc.
    repeat first [apply ends_with_here | apply ends_with_step].
  - intros ->. vm_compute in Hlast. by injection Hlast as <-.
Qed.

Lemma create_user_message_needs_dates (response : pyval) :
  date_fields_ok response = false -> raises (create_user_message response).
Proof.
  unfold date_fields_ok, create_user_message, raises. intros Hok.
  repeat match goal with
         | |- context [bind (py_getitem ?a ?k) _] =>
             destruct (py_getitem a k) eqn:?; simpl; [|eexists; reflexivity]
         end.
  repeat match goal with
         | Hx : py_getitem _ _ = Ok _ |- _ => rewrite Hx in Hok; clear Hx
         end.
  unfold date_field_ok in Hok.
  repeat match goal with
         | |- context [py_split_hyphen ?v] =>
             destruct v; simpl; try (eexists; reflexivity)
         | |- context [unpack2 (split_on ?c ?s)] =>
             destruct (split_on c s) as [|? [|? [|? ?]]]; simpl;
             try (eexists; reflexivity)
         | |- context [strptime_Ymd ?s] =>
             destruct (strptime_Ymd s); simpl; try (eexists; reflexivity)
         end.
  discriminate Hok.
Qed.

(** C10, as the code has it. [create_user_message] raises whenever [last]
    or [first] is not a string that [split("-")] cuts into exactly two
    parts, or [strptime] with [%Y%m%d] rejects the first part; it is
    called by the [user] command before any reply is sent, so the command
    then ends with that exception after the typing notice and sends no
    message. *)
Theorem malformed_date_raises (response : pyval) :
  date_fields_ok response = false ->
  exists e,
    create_user_message response = Raise e
    /\ forall (w : world) (user_id room_id sender body first username : string)
              (args : list string),
         sender <> user_id ->
         String.prefix command_prefix body = true ->
         split_ws (strip (drop_str (String.length command_prefix) body))
         = first :: username :: args ->
         lower first = "user" ->
         fetch_wigle_user_stats w username = Ok response ->
         is_success response = Ok true ->
         message_callback w user_id room_id sender body
         = ([Typing room_id], Raise e).
Proof.
  intros [e He]%create_user_message_needs_dates. exists e. split; [done|].
  intros w user_id room_id sender body first username args
         Hsender Hprefix Hparts Hverb Hfetch Hsuccess.
  unfold message_callback.
  rewrite (eqb_sender _ _ Hsender), Hprefix, Hparts, Hverb. simpl.
  rewrite Hfetch. simpl. unfold reply. rewrite Hsuccess. simpl.
  by rewrite He.
Qed.

End FormatterProperties.

(** ** CommandRouter: the gate, the shape of a conversation, the verbs *)

Lemma one_reply_send (room_id : string) (m : pyval) :
  one_reply room_id (send_message room_id m).
Proof. left. by exists m. Qed.

Lemma one_reply_lift {A : Type} (room_id : string) (r : result A)
  (k : A -> io unit) :
  (forall a, one_reply room_id (k a)) ->
  one_reply room_id (io_bind (lift r) k).
Proof.
  intros Hk. destruct r as [a|e]; simpl.
  - destruct (Hk a) as [[m ->] | [e ->]]; [left | right]; by eexists.
  - right. by exists e.
Qed.

Lemma after_typing (room_id : string) (c : io unit) :
  one_reply room_id c ->
  command_trace room_id (io_bind (send_typing_notice room_id) (fun _ => c)).
Proof. intros [[m ->] | [e ->]]; simpl; constructor. Qed.

Ltac one_reply :=
  repeat first
    [ apply one_reply_send
    | apply one_reply_lift; intros ?
    | match goal with
      | |- one_reply _ (if ?b then _ else _) => destruct b
      | |- one_reply _ (match ?x with _ => _ end) => destruct x
      end ].

Section RouterConversations.
Context `{PyRuntime}.
Variable w : world.
Variable user_id : string.

Lemma one_reply_reply (room_id : string) (response : pyval)
  (format : pyval -> result string) (payload_key : option string)
  (fallback : string) :
  one_reply room_id (reply room_id response format payload_key fallback).
Proof. unfold reply. one_reply. Qed.

(** X1. The gate. A message of the bot itself, and a message that does not
    start with the prefix, are ignored: nothing is sent and no request is
    made, whatever the body and whatever the session would answer. *)
Theorem own_and_unprefixed_messages_are_ignored
  (room_id sender body : string) :
  sender = user_id \/ String.prefix command_prefix body = false ->
  message_callback w user_id room_id sender body = ([], Ok tt).
Proof.
  intros [-> | Hprefix]; unfold message_callback.
  - by rewrite String.eqb_refl.
  - rewrite Hprefix. by destruct (String.eqb sender user_id).
Qed.

(** X2. The shape of a conversation. Whatever the message and whatever the
    session answers, [message_callback] sends at most one typing notice
    and at most one message, both to the room of the message, the notice
    first; when it raises, it has sent no message. *)
Theorem callback_sends_at_most_one_message (room_id sender body : string) :
  command_trace room_id (message_callback w user_id room_id sender body).
Proof.
  unfold message_callback.
  destruct (String.eqb sender user_id); [constructor|].
  destruct (String.prefix command_prefix body); [|constructor].
  destruct (split_ws _) as [|first args]; [constructor|].
  repeat match goal with
         | |- command_trace _ (if ?b then _ else _) => destruct b
         end;
    first [ constructor
          | apply after_typing; one_reply; apply one_reply_reply
          | apply after_typing; one_reply ].
Qed.

(** X3. Verbs are matched in lower case and the body is read token by token:
    two prefixed bodies whose first tokens agree once lowercased, followed
    by the same arguments, are handled alike, whatever their letter case
    and their spacing. *)
Theorem verb_case_and_spacing_are_immaterial
  (room_id sender body body' first first' : string) (args : list string) :
  String.prefix command_prefix body = true ->
  String.prefix command_prefix body' = true ->
  tokens body = first :: args ->
  tokens body' = first' :: args ->
  lower first = lower first' ->
  message_callback w user_id room_id sender body
  = message_callback w user_id room_id sender body'.
Proof.
  unfold tokens. intros Hp Hp' Ht Ht' Hverb. unfold message_callback.
  by rewrite Hp, Hp', Ht, Ht', Hverb.
Qed.

(** X4. The [user] command reads its first argument only: what follows the
    username changes nothing. *)
Theorem user_reads_one_argument
  (room_id sender body body' first first' username : string)
  (args : list string) :
  String.prefix command_prefix body = true ->
  String.prefix command_prefix body' = true ->
  tokens body = first :: username :: args ->
  tokens body' = [first'; username] ->
  lower first = "user" ->
  lower first' = "user" ->
  message_callback w user_id room_id sender body
  = message_callback w user_id room_id sender body'.
Proof.
  unfold tokens. intros Hp Hp' Ht Ht' Hverb Hverb'. unfold message_callback.
  by rewrite Hp, Hp', Ht, Ht', Hverb, Hverb'.
Qed.

(** X5. The [help] command, in any letter case and with any arguments, sends a
    typing notice and the help text; the session is not used. *)
Theorem help_sends_the_command_list
  (room_id sender body first : string) (args : list string) :
  sender <> user_id ->
  String.prefix command_prefix body = true ->
  tokens body = first :: args ->
  lower first = "help" ->
  message_callback w user_id room_id sender body
  = ([Typing room_id; Send room_id (PStr get_help_message)], Ok tt).
Proof.
  unfold tokens. intros Hsender Hp Ht Hverb. unfold message_callback.
  by rewrite (eqb_sender _ _ Hsender), Hp, Ht, Hverb.
Qed.

(** X6. A failure of the client is what the room reads: when the request a
    command starts with returns [{"success": False, "message": m}], the
    command sends a typing notice and then [m], and nothing else. *)
Theorem client_failure_is_relayed
  (room_id sender body first m : string) (args : list string) :
  sender <> user_id ->
  String.prefix command_prefix body = true ->
  tokens body = first :: args ->
  first_fetch w (lower first) args = Some (Ok (failure m)) ->
  message_callback w user_id room_id sender body
  = ([Typing room_id; Send room_id (PStr m)], Ok tt).
Proof.
  unfold tokens, first_fetch. intros Hsender Hp Ht Hfetch.
  unfold message_callback.
  rewrite (eqb_sender _ _ Hsender), Hp, Ht.
  repeat match type of Hfetch with
         | (if ?b then _ else _) = _ => destruct b
         end;
    try discriminate Hfetch;
    injection Hfetch as Hfetch; rewrite Hfetch; reflexivity.
Qed.

(** X7. End to end, the [user] command on HTTP 404. *)
Theorem user_command_on_404
  (room_id sender body first username : string) (args : list string)
  (resp : response) :
  sender <> user_id ->
  String.prefix command_prefix body = true ->
  tokens body = first :: username :: args ->
  lower first = "user" ->
  session_get w (user_stats_request w username) = Ok resp ->
  status resp = 404 ->
  message_callback w user_id room_id sender body
  = ([Typing room_id; Send room_id (PStr "User not found.")], Ok tt).
Proof.
  unfold tokens. intros Hsender Hp Ht Hverb Hget Hstatus.
  unfold message_callback.
  rewrite (eqb_sender _ _ Hsender), Hp, Ht, Hverb. simpl.
  unfold fetch_wigle_user_stats.
  change ("https://api.wigle.net/api/v2/stats/user?user=" +:+ username
          +:+ "&nocache=" +:+ str_int (clock w))
    with (user_stats_request w username).
  by rewrite Hget; simpl; rewrite Hstatus.
Qed.

(** X8. The second step of [userrank]. Once the group is resolved to a URL,
    a member listing that cannot be had (the request raises an exception
    deriving from [Exception], or is answered with a status other than
    200) is reported as "Failed to fetch group data.", without the status
    or the detail of the fault. *)
Theorem userrank_member_listing_unavailable
  (room_id sender body first url : string) (args : list string)
  (resolved : pyval) :
  sender <> user_id ->
  String.prefix command_prefix body = true ->
  tokens body = first :: args ->
  lower first = "userrank" ->
  args <> [] ->
  fetch_wigle_id w (join " " args) = Ok resolved ->
  is_success resolved = Ok true ->
  py_get resolved "url" PNone = Ok (PStr url) ->
  (exists e, session_get w url = Raise e /\ is_Exception e = true)
  \/ (exists resp, session_get w url = Ok resp /\ status resp <> 200) ->
  message_callback w user_id room_id sender body
  = ([Typing room_id; Send room_id (PStr "Failed to fetch group data.")],
     Ok tt).
Proof.
  unfold tokens. intros Hsender Hp Ht Hverb Hargs Hid Hsuccess Hurl Hmembers.
  unfold message_callback.
  rewrite (eqb_sender _ _ Hsender), Hp, Ht, Hverb.
  destruct args as [|a args]; [done|].
  cbv zeta. rewrite Hid. simpl. rewrite Hsuccess. simpl. rewrite Hurl. simpl.
  unfold fetch_user_rank.
  destruct Hmembers as [(e & -> & He) | (resp & -> & Hstatus)]; simpl.
  - by rewrite He.
  - apply Z.eqb_neq in Hstatus. by rewrite Hstatus.
Qed.

(** X9. The whole of [userrank]. With the group resolved to a URL and that
    URL answered with HTTP 200 and a JSON object that is not empty, the
    command sends the ranking of the object's [users] (of no member at all
    when the object has no such item) under the group name as it was
    typed, its words joined by single spaces. *)
Theorem userrank_sends_the_member_ranking
  (room_id sender body first url text : string) (args : list string)
  (resolved : pyval) (resp : response) (members : gmap string pyval) :
  sender <> user_id ->
  String.prefix command_prefix body = true ->
  tokens body = first :: args ->
  lower first = "userrank" ->
  args <> [] ->
  fetch_wigle_id w (join " " args) = Ok resolved ->
  is_success resolved = Ok true ->
  py_get resolved "url" PNone = Ok (PStr url) ->
  session_get w url = Ok resp ->
  status resp = 200 ->
  json resp = Ok (PDict members) ->
  members <> ∅ ->
  format_user_rankings
    (match members !! "users" with Some users => users | None => PList [] end)
    (join " " args) = Ok text ->
  message_callback w user_id room_id sender body
  = ([Typing room_id; Send room_id (PStr text)], Ok tt).
Proof.
  unfold tokens.
  intros Hsender Hp Ht Hverb Hargs Hid Hsuccess Hurl Hget Hstatus Hjson
         Hmembers Htext.
  unfold message_callback.
  rewrite (eqb_sender _ _ Hsender), Hp, Ht, Hverb.
  destruct args as [|a args]; [done|].
  cbv zeta. remember (join " " (a :: args)) as group eqn:Hgroup in *.
  rewrite Hid. simpl. rewrite Hsuccess. simpl. rewrite Hurl. simpl.
  unfold fetch_user_rank. rewrite Hget. simpl. rewrite Hstatus, Hjson. simpl.
  rewrite bool_decide_eq_false_2 by done. simpl.
  by rewrite Htext.
Qed.

End RouterConversations.

(** ** ApiClient: statuses, bodies that are not what is expected, faults *)

Section ApiClientEdges.
Context `{PyRuntime}.
Variable w : world.

(** X12. A status other than 200 is reported without reading the body: as
    "HTTP error <status>" by the five operations that return a dict (by
    [fetch_wigle_user_stats] as "User not found." when the status is 404),
    and as [None] by [fetch_user_rank]. *)
Theorem http_status_is_reported
  (n : Z) (username group_name url : string) :
  n <> 200 ->
  (forall req, exists resp, session_get w req = Ok resp /\ status resp = n) ->
  fetch_wigle_user_stats w username
  = Ok (failure (if n =? 404 then "User not found."
                 else "HTTP error " +:+ str_int n))
  /\ fetch_wigle_group_rank w = Ok (failure ("HTTP error " +:+ str_int n))
  /\ fetch_wigle_id w group_name = Ok (failure ("HTTP error " +:+ str_int n))
  /\ fetch_wigle_alltime_rank w = Ok (failure ("HTTP error " +:+ str_int n))
  /\ fetch_wigle_month_rank w = Ok (failure ("HTTP error " +:+ str_int n))
  /\ fetch_user_rank w url = Ok PNone.
Proof.
  intros Hn%Z.eqb_neq Hall.
  repeat split;
    match goal with
    | |- ?f = _ =>
        let f' := eval hnf in f in
        match f' with
        | context [session_get w ?req] =>
            unfold fetch_wigle_user_stats, fetch_wigle_group_rank,
              fetch_wigle_id, fetch_wigle_alltime_rank,
              fetch_wigle_month_rank, fetch_standings, fetch_user_rank;
            destruct (Hall req) as (resp & Hreq & Hstatus);
            rewrite Hreq; simpl; rewrite Hstatus, ?Hn; simpl;
            try destruct (n =? 404); reflexivity
        end
    end.
Qed.

(** X13. A matching profile is returned as it came, but for the badge: an
    [imageBadgeUrl] that is a string and not empty gets "?nocache="
    and the timestamp of the request appended; without a badge, or with an
    empty one, the object is returned unchanged. *)
Theorem matching_profile_gets_a_fresh_badge
  (username : string) (d st : gmap string pyval) (s : pyval) (u : string)
  (badge : option string) :
  answers_object w (user_stats_request w username) d ->
  d !! "success" = Some s ->
  py_truthy s = true ->
  d !! "statistics" = Some (PDict st) ->
  st !! "userName" = Some (PStr u) ->
  lower u = lower username ->
  d !! "imageBadgeUrl" = PStr <$> badge ->
  fetch_wigle_user_stats w username
  = Ok (PDict
          match badge with
          | Some (String c b) =>
              <["imageBadgeUrl" :=
                  PStr (String c b +:+ "?nocache=" +:+ str_int (clock w))]> d
          | _ => d
          end).
Proof.
  intros (resp & Hget & Hstatus & Hjson) Hs Htruthy Hst Hu Hname Hbadge.
  unfold fetch_wigle_user_stats.
  change ("https://api.wigle.net/api/v2/stats/user?user=" +:+ username
          +:+ "&nocache=" +:+ str_int (clock w))
    with (user_stats_request w username).
  rewrite Hget. simpl. rewrite Hstatus, Hjson. simpl.
  rewrite Hs. simpl. rewrite Htruthy, Hst. simpl. rewrite Hu. simpl.
  rewrite Hname, String.eqb_refl, Hbadge.
  by destruct badge as [[|c b]|].
Qed.


(** X15. The group list is returned as it came when its success flag holds and
    it has a [groups] item, whatever that item is; any other JSON object
    is answered by "No group data available.". *)
Theorem group_list_is_returned_unchanged (d : gmap string pyval) :
  answers_object w (group_request w) d ->
  fetch_wigle_group_rank w
  = Ok (match d !! "success", d !! "groups" with
        | Some s, Some _ =>
            if py_truthy s then PDict d
            else failure "No group data available."
        | _, _ => failure "No group data available."
        end).
Proof.
  intros (resp & Hget & Hstatus & Hjson).
  unfold fetch_wigle_group_rank.
  change ("https://api.wigle.net/api/v2/stats/group?nocache="
          +:+ str_int (clock w)) with (group_request w).
  rewrite Hget. simpl. rewrite Hstatus, Hjson. simpl.
  destruct (d !! "success") as [s|]; simpl; [|done].
  destruct (py_truthy s); simpl; [|by destruct (d !! "groups")].
  by destruct (d !! "groups").
Qed.

(** X16. When the group list comes without a success flag that holds,
    [fetch_wigle_id] passes on the [message] of the answer, whatever its
    type; when the answer has no [message] either, the failure it returns
    carries the text of the [KeyError]. *)
Theorem group_list_failure_is_passed_on
  (group_name : string) (d : gmap string pyval) :
  answers_object w (group_request w) d ->
  match d !! "success" with Some s => py_truthy s = false | None => True end ->
  fetch_wigle_id w group_name
  = Ok (match d !! "message" with
        | Some message =>
            PDict (<["success" := PBool false]> (<["message" := message]> ∅))
        | None => failure (exn_str (KeyError "message"))
        end).
Proof.
  intros (resp & Hget & Hstatus & Hjson) Hs.
  unfold fetch_wigle_id.
  change ("https://api.wigle.net/api/v2/stats/group?nocache="
          +:+ str_int (clock w)) with (group_request w).
  rewrite Hget. simpl. rewrite Hstatus, Hjson. simpl.
  destruct (d !! "success") as [s|]; simpl; [rewrite Hs|];
    by destruct (d !! "message").
Qed.

(** X17. A successful group list without a [groups] item is read as an empty
    list: no group is found, whatever the name. *)
Theorem missing_groups_is_no_group
  (group_name : string) (d : gmap string pyval) (s : pyval) :
  answers_object w (group_request w) d ->
  d !! "success" = Some s ->
  py_truthy s = true ->
  d !! "groups" = None ->
  fetch_wigle_id w group_name
  = Ok (failure ("No group named '" +:+ group_name +:+ "' found.")).
Proof.
  intros (resp & Hget & Hstatus & Hjson) Hs Htruthy Hgroups.
  unfold fetch_wigle_id.
  change ("https://api.wigle.net/api/v2/stats/group?nocache="
          +:+ str_int (clock w)) with (group_request w).
  rewrite Hget. simpl. rewrite Hstatus, Hjson. simpl.
  by rewrite Hs; simpl; rewrite Htruthy, Hgroups.
Qed.

Lemma drop_anonymous_KeyError (items : list pyval) :
  Forall (fun r => exists d, r = PDict d) items ->
  Exists (fun r => py_getitem r "userName" = Raise (KeyError "userName"))
         items ->
  drop_anonymous items = Raise (KeyError "userName").
Proof.
  intros Hdicts Hbad. induction Hdicts as [|r rest [d ->] _ IH]; simpl.
  - by apply Exists_nil in Hbad.
  - apply Exists_cons in Hbad as [Hbad | Hbad].
    + simpl in Hbad. destruct (d !! "userName"); [done|]. by simpl.
    + destruct (d !! "userName"); simpl; [|done]. by rewrite (IH Hbad).
Qed.

(** X18. One entry without a [userName] spoils the standings: when the results
    are objects and one of them has no [userName], neither standings
    operation returns any entry; both return a failure whose message is
    the text of the [KeyError]. *)
Theorem standings_entry_without_userName
  (sort : standings_sort) (d : gmap string pyval) (success : pyval)
  (items : list pyval) :
  answers_object w (standings_request sort) d ->
  d !! "success" = Some success ->
  py_truthy success = true ->
  d !! "results" = Some (PList items) ->
  Forall (fun r => exists e, r = PDict e) items ->
  Exists (fun r => py_getitem r "userName" = Raise (KeyError "userName"))
         items ->
  fetch_standings_by w sort = Ok (failure (exn_str (KeyError "userName"))).
Proof.
  intros (resp & Hget & Hstatus & Hjson) Hs Htruthy Hres Hdicts Hbad.
  assert (Hgen : fetch_standings w (standings_request sort)
                 = Ok (failure (exn_str (KeyError "userName")))).
  { unfold fetch_standings. rewrite Hget. simpl. rewrite Hstatus, Hjson.
    simpl. rewrite Hs. simpl. rewrite Htruthy, Hres. simpl.
    by rewrite (drop_anonymous_KeyError _ Hdicts Hbad). }
  by destruct sort.
Qed.

(** X19. Standings without a success flag that holds, or without a [results]
    item, are answered by "No rank data available.". *)
Theorem standings_without_results
  (sort : standings_sort) (d : gmap string pyval) :
  answers_object w (standings_request sort) d ->
  match d !! "success" with Some s => py_truthy s = false | None => True end
  \/ d !! "results" = None ->
  fetch_standings_by w sort = Ok (failure "No rank data available.").
Proof.
  intros (resp & Hget & Hstatus & Hjson) Hbody.
  assert (Hgen : fetch_standings w (standings_request sort)
                 = Ok (failure "No rank data available.")).
  { unfold fetch_standings. rewrite Hget. simpl. rewrite Hstatus, Hjson.
    simpl. destruct Hbody as [Hs | Hres].
    - destruct (d !! "success") as [s|]; simpl; [by rewrite Hs|done].
    - destruct (d !! "success") as [s|]; simpl; [|done].
      destruct (py_truthy s); simpl; [by rewrite Hres|done]. }
  by destruct sort.
Qed.

(** X20. What does not derive from [Exception] is not caught: a cancellation
    raised by the request leaves each of the six operations as it
    entered. *)
Theorem cancellation_is_not_swallowed
  (e : exn) (username group_name url : string) :
  is_Exception e = false ->
  (forall req, session_get w req = Raise e) ->
  fetch_wigle_user_stats w username = Raise e
  /\ fetch_wigle_group_rank w = Raise e
  /\ fetch_wigle_id w group_name = Raise e
  /\ fetch_wigle_alltime_rank w = Raise e
  /\ fetch_wigle_month_rank w = Raise e
  /\ fetch_user_rank w url = Raise e.
Proof.
  intros He Hall.
  unfold fetch_wigle_user_stats, fetch_wigle_group_rank, fetch_wigle_id,
    fetch_wigle_alltime_rank, fetch_wigle_month_rank, fetch_standings,
    fetch_user_rank.
  rewrite !Hall. simpl. by rewrite He.
Qed.

End ApiClientEdges.

(** ** ResponseFormatter: bounds, what is read and what is not *)

Section FormatterEdges.
Context `{PyRuntime}.




Lemma drop_locked_bad_status (good : list pyval) (bad : pyval)
  (rest : list pyval) (e : exn) :
  Forall (fun u => exists s, py_getitem u "status" = Ok (PStr s)) good ->
  py_getitem bad "status" = Raise e ->
  drop_locked (good ++ bad :: rest) = Raise e.
Proof.
  intros Hgood Hbad. induction Hgood as [|u good [s Hs] _ IH]; simpl.
  - by rewrite Hbad.
  - by rewrite Hs; simpl; rewrite IH.
Qed.

(** X23. The user ranking reads the status of every member before it ranks
    any: a member without a [status], however far down the list, makes
    [format_user_rankings] raise and return no text. *)
Theorem member_without_status_spoils_the_ranking
  (good : list pyval) (bad : pyval) (rest : list pyval) (e : exn)
  (group_name : string) :
  Forall (fun u => exists s, py_getitem u "status" = Ok (PStr s)) good ->
  py_getitem bad "status" = Raise e ->
  format_user_rankings (PList (good ++ bad :: rest)) group_name = Raise e.
Proof.
  intros Hgood Hbad. unfold format_user_rankings. simpl.
  by rewrite (drop_locked_bad_status _ _ _ _ Hgood Hbad).
Qed.

Lemma filter_unlocked_status (users : list pyval) :
  Forall (fun u => exists s, py_getitem u "status" = Ok (PStr s)) users ->
  Forall (fun u => exists s, py_getitem u "status" = Ok (PStr s))
         (List.filter (fun u => negb (locked u)) users).
Proof.
  intros Hall. apply List.Forall_forall. intros u [Hu _]%filter_In.
  by apply (proj1 (List.Forall_forall _ _) Hall).
Qed.

Lemma filter_unlocked_twice (users : list pyval) :
  List.filter (fun u => negb (locked u))
              (List.filter (fun u => negb (locked u)) users)
  = List.filter (fun u => negb (locked u)) users.
Proof.
  induction users as [|u rest IH]; simpl; [done|].
  destruct (negb (locked u)) eqn:Hu; simpl; [|done]. by rewrite Hu, IH.
Qed.

(** X24. Locked members count for nothing: with statuses that are strings, the
    ranking of a list is the ranking of its unlocked members, so adding or
    removing locked members, wherever they stand, leaves the text as it
    is. *)
Theorem locked_members_do_not_count
  (users : list pyval) (group_name : string) :
  Forall (fun u => exists s, py_getitem u "status" = Ok (PStr s)) users ->
  format_user_rankings (PList users) group_name
  = format_user_rankings
      (PList (List.filter (fun u => negb (locked u)) users)) group_name.
Proof.
  intros Hstatus. unfold format_user_rankings. simpl.
  rewrite (drop_locked_filter _ Hstatus).
  rewrite (drop_locked_filter _ (filter_unlocked_status _ Hstatus)).
  by rewrite filter_unlocked_twice.
Qed.

(** X25. The client checks less than the formatter reads. A profile that
    matches the request, and so is returned as a success, but has no
    [user] item makes the [user] command raise [KeyError] after the typing
    notice: no message is sent. *)
Theorem matching_profile_without_user_item
  (w : world) (user_id room_id sender body first username : string)
  (args : list string) (d st : gmap string pyval) (s : pyval) (u : string) :
  sender <> user_id ->
  String.prefix command_prefix body = true ->
  tokens body = first :: username :: args ->
  lower first = "user" ->
  answers_object w (user_stats_request w username) d ->
  d !! "success" = Some s ->
  py_truthy s = true ->
  d !! "statistics" = Some (PDict st) ->
  st !! "userName" = Some (PStr u) ->
  lower u = lower username ->
  d !! "imageBadgeUrl" = None ->
  d !! "user" = None ->
  message_callback w user_id room_id sender body
  = ([Typing room_id], Raise (KeyError "user")).
Proof.
  unfold tokens.
  intros Hsender Hp Ht Hverb (resp & Hget & Hstatus & Hjson) Hs Htruthy Hst
         Hu Hname Hbadge Huser.
  assert (Hfetch : fetch_wigle_user_stats w username = Ok (PDict d)).
  { unfold fetch_wigle_user_stats.
    change ("https://api.wigle.net/api/v2/stats/user?user=" +:+ username
            +:+ "&nocache=" +:+ str_int (clock w))
      with (user_stats_request w username).
    rewrite Hget. simpl. rewrite Hstatus, Hjson. simpl.
    rewrite Hs. simpl. rewrite Htruthy, Hst. simpl. rewrite Hu. simpl.
    by rewrite Hname, String.eqb_refl, Hbadge. }
  unfold message_callback.
  rewrite (eqb_sender _ _ Hsender), Hp, Ht, Hverb. simpl.
  rewrite Hfetch. simpl. unfold reply, is_success. simpl.
  rewrite Hs. simpl. rewrite Htruthy. simpl.
  unfold create_user_message. simpl. by rewrite Hst, Huser.
Qed.

End FormatterEdges.

(** ** The life of the bot *)

(** X26. A refused login ends [start] quietly: no callback is registered and
    the bot never syncs; [start] returns without an exception, having
    created the store directory if it was missing. *)
Theorem refused_login_never_syncs (h : host) (message : string) :
  login h = Ok (LoginError message) ->
  (store_exists h = false -> makedirs h = Ok tt) ->
  start h
  = (((if store_exists h then [] else [MakeDirs "store/"]) ++ [Login])%list,
     Ok tt).
Proof.
  intros Hlogin Hdirs. unfold start.
  destruct (store_exists h); simpl.
  - by rewrite Hlogin.
  - by rewrite (Hdirs eq_refl); simpl; rewrite Hlogin.
Qed.

Lemma close_begins (h : host) :
  exists after, fst (close h) = CloseSession :: after
                /\ CloseSession ∉ after.
Proof.
  unfold close. destruct (session_close h); simpl.
  - exists [CloseClient]. split; [done|].
    intros [Hin | Hin%elem_of_nil]%elem_of_cons; [discriminate Hin | done].
  - exists []. split; [done|]. apply not_elem_of_nil.
Qed.

Lemma start_never_closes (h : host) : CloseSession ∉ fst (start h).
Proof.
  unfold start, perform.
  destruct (store_exists h), (makedirs h), (login h) as [[]|],
    (sync_forever h); simpl;
    intros Hin;
    repeat (apply elem_of_cons in Hin as [Hin | Hin]; [discriminate Hin|]);
    by apply elem_of_nil in Hin.
Qed.

(** X27. Whatever [start] does (returns, raises, is cancelled), [main] closes
    the HTTP session once, after everything [start] did. *)
Theorem main_always_closes (h : host) :
  exists after,
    fst (main h) = (fst (start h) ++ CloseSession :: after)%list
    /\ (CloseSession ∉ fst (start h))
    /\ (CloseSession ∉ after).
Proof.
  destruct (close_begins h) as (after & Hclose & Hafter).
  exists after. split; [|split; [apply start_never_closes | done]].
  unfold main. destruct (start h) as [started r].
  destruct (close h) as [closed r']. simpl in *. by rewrite Hclose.
Qed.

(** When closing goes well, an exception of [start] that derives from
    [Exception] ends [main] quietly, and any other leaves [main] as it
    left [start]. *)
Lemma main_swallows_Exception (h : host) (e : exn) :
  snd (start h) = Raise e ->
  session_close h = Ok tt ->
  client_close h = Ok tt ->
  snd (main h) = if is_Exception e then Ok tt else Raise e.
Proof.
  intros Hstart Hsession Hclient. unfold main, close.
  rewrite Hsession, Hclient. simpl.
  destruct (start h) as [started r]. simpl in *. by subst r.
Qed.

(** * The properties on concrete conversations *)

Lemma blank_command_raises_IndexError_witness :
  message_callback (replying 200 PNone) bot room alice "!" = ([], Raise IndexError)
  /\ message_callback (replying 200 PNone) bot room alice "!   "
     = ([], Raise IndexError).
Proof.
  split.
  - apply (blank_command_raises_IndexError (replying 200 PNone) bot room alice "");
      [discriminate | reflexivity].
  - apply (blank_command_raises_IndexError (replying 200 PNone) bot room alice "   ");
      [discriminate | reflexivity].
Defined.

Lemma unknown_or_argless_command_witness :
  message_callback (replying 200 PNone) bot room alice "!xyz"
  = ([Send room (PStr "Unknown command. Type !help for available commands.")],
     Ok tt)
  /\ message_callback (replying 200 PNone) bot room alice "!UserRank"
     = ([Send room
           (PStr "Unknown command. Type !help for available commands.")],
        Ok tt).
Proof.
  split.
  - apply (unknown_or_argless_command (replying 200 PNone) bot room alice
             "!xyz" "xyz" []); [discriminate | reflexivity | reflexivity |].
    left. unfold recognized_verbs. intros Hin.
    repeat (apply elem_of_cons in Hin as [Hin | Hin]; [discriminate Hin|]).
    by apply elem_of_nil in Hin.
  - apply (unknown_or_argless_command (replying 200 PNone) bot room alice
             "!UserRank" "UserRank" []);
      [discriminate | reflexivity | reflexivity |].
    right. split; [|reflexivity]. apply list_elem_of_further, list_elem_of_here.
Defined.

Lemma answers_replying (req : string) (d : gmap string pyval) :
  answers_object (replying 200 (PDict d)) req d.
Proof. by eexists. Qed.

Lemma unmatched_profile_is_not_found_witness :
  exists m,
    (m = "User not found."
     \/ m = "Invalid data received or user not found.")
    /\ fetch_wigle_user_stats (replying 200 (PDict bobs_profile)) "alice"
       = Ok (failure m)
    /\ is_success (failure m) = Ok false.
Proof.
  apply (unmatched_profile_is_not_found
           (replying 200 (PDict bobs_profile)) "alice" bobs_profile).
  - apply answers_replying.
  - apply (other_userName "alice" bobs_profile
             (list_to_map [("userName", PStr "Bob")]) "Bob");
      [reflexivity | reflexivity | discriminate].
Defined.

Lemma standings_drop_anonymous_witness :
  fetch_wigle_month_rank (replying 200 (PDict standings_body))
  = Ok (PDict (<["results" := PList [standing "carol" 1234567;
                                      standing "dave" 4321]]>
               standings_body))
  /\ Forall (fun r => named_anonymous r = false)
            [standing "carol" 1234567; standing "dave" 4321].
Proof.
  pose proof (standings_drop_anonymous
                (replying 200 (PDict standings_body)) MonthCount
                standings_body (PBool true)
                [standing "anonymous" 9000000; standing "carol" 1234567;
                 standing "dave" 4321]
                (answers_replying _ _) eq_refl eq_refl eq_refl) as Hthm.
  destruct Hthm as (Hfetch & _ & _ & Hkept).
  - repeat constructor; by eexists.
  - split; [exact Hfetch | exact Hkept].
Defined.

Lemma two_groups_entries : Forall group_entry two_groups.
Proof. repeat constructor; by do 2 eexists. Qed.

Lemma resolve_group_first_match_witness :
  (exists group_id,
     py_getitem (group "Foo Bar" "20150607-00042" 1234) "groupId"
     = Ok group_id
     /\ fetch_wigle_id (replying 200 (PDict group_list_body)) "foo bar"
        = Ok (PDict
                (<["success" := PBool true]>
                (<["groupId" := group_id]>
                (<["url" := PStr (member_listing_url (py_str group_id))]>
                 ∅)))))
  /\ fetch_wigle_id (replying 200 (PDict group_list_body)) "Foo Baz"
     = Ok (failure "No group named 'Foo Baz' found.").
Proof.
  split.
  - exact (resolve_group_first_match
             (replying 200 (PDict group_list_body)) "foo bar"
             group_list_body (PBool true) two_groups
             (answers_replying _ _) eq_refl eq_refl eq_refl
             two_groups_entries).
  - exact (resolve_group_first_match
             (replying 200 (PDict group_list_body)) "Foo Baz"
             group_list_body (PBool true) two_groups
             (answers_replying _ _) eq_refl eq_refl eq_refl
             two_groups_entries).
Defined.

Lemma transport_fault_is_caught_witness :
  fetch_wigle_user_stats timing_out "alice"
  = Ok (failure (exn_str TimeoutError))
  /\ fetch_wigle_group_rank timing_out = Ok (failure (exn_str TimeoutError))
  /\ fetch_wigle_id timing_out "Foo Bar"
     = Ok (failure (exn_str TimeoutError))
  /\ fetch_wigle_alltime_rank timing_out
     = Ok (failure (exn_str TimeoutError))
  /\ fetch_wigle_month_rank timing_out = Ok (failure (exn_str TimeoutError))
  /\ fetch_user_rank timing_out (member_listing_url "20150607-00042")
     = Ok PNone.
Proof.
  apply (transport_fault_is_caught timing_out TimeoutError);
    [reflexivity | intros req; by left].
Defined.

(** C7 as the specification words it fails on [fetch_user_rank]: a request
    that times out makes it return [None], not a failure that carries the
    detail of the fault as its message. *)
Lemma fetch_user_rank_drops_the_detail :
  ~ (forall (w : world) (url : string) (e : exn),
       is_Exception e = true -> faults w url e ->
       fetch_user_rank w url = Ok (failure (exn_str e))).
Proof.
  intros Hclaim.
  specialize (Hclaim timing_out (member_listing_url "20150607-00042")
                     TimeoutError eq_refl (or_introl eq_refl)).
  discriminate Hclaim.
Qed.

Lemma user_rankings_filter_then_truncate_witness :
  format_user_rankings (PList ten_members) "Foo Bar"
  = Ok ("**User Rankings for 'Foo Bar':**" +:+ nl
        +:+ "1st: erin | Total: 90,000" +:+ nl
        +:+ "2nd: grace | Total: 70,000" +:+ nl
        +:+ "3rd: heidi | Total: 60,000" +:+ nl
        +:+ "4th: ivan | Total: 50,000" +:+ nl
        +:+ "5th: judy | Total: 40,000" +:+ nl
        +:+ "6th: mallory | Total: 30,000" +:+ nl
        +:+ "7th: niaj | Total: 20,000" +:+ nl
        +:+ "8th: olivia | Total: 10,000" +:+ nl
        +:+ "9th: peggy | Total: 1,234" +:+ nl)
  /\ Forall (fun u => locked u = false)
       (take 10 (List.filter (fun u => negb (locked u)) ten_members)).
Proof.
  apply (user_rankings_filter_then_truncate ten_members "Foo Bar").
  repeat constructor; by eexists.
Defined.

Lemma rankings_first_to_tenth_witness :
  exists bodies,
    format_ranking GroupRanking (PList twelve_groups)
    = Ok (ranking_header GroupRanking
          +:+ text_of_lines (zip_with numbered ten_ordinals bodies))
    /\ length bodies = 10%nat.
Proof.
  eexists.
  apply (rankings_first_to_tenth GroupRanking twelve_groups twelve_groups);
    reflexivity.
Defined.

Lemma numeric_int (n : Z) : numeric (PInt n).
Proof. by eexists. Qed.

Lemma user_message_shows_dates_witness :
  exists head,
    create_user_message (user_payload "20240304-153000" "20190728-070809")
    = Ok (head +:+ "Last Event: March 04, 2024" +:+ nl
          +:+ "First Ever Event: July 28, 2019" +:+ nl).
Proof.
  destruct (user_message_shows_dates
              (user_payload "20240304-153000" "20190728-070809")
              (user_statistics "20240304-153000" "20190728-070809")
              (PStr "alice") (PStr "0.01234")
              (PInt 1234) (PInt 56) (PInt 1300) (PInt 60) (PInt 7890)
              (PInt 4567) (PInt 1234567) (PInt 2345678) (PInt 321) (PInt 654)
              (PInt 98765) (PInt 123456) (PInt 34567890)
              "20240304-153000" "20190728-070809"
              {| year := 2024; month := 3; day := 4 |}
              {| year := 2019; month := 7; day := 28 |})
    as [[head Hhead] _];
    [repeat constructor | repeat constructor
    | repeat constructor; apply numeric_int | reflexivity | reflexivity |].
  exists head. exact Hhead.
Defined.

(** The payload of a user whose last stamp has two hyphens. *)
Lemma malformed_date_raises_witness :
  exists e,
    create_user_message (user_payload "2024-03-04" "20190728-070809")
    = Raise e
    /\ message_callback
         (replying 200 (user_payload "2024-03-04" "20190728-070809"))
         bot room alice "!user alice"
       = ([Typing room], Raise e).
Proof.
  destruct (malformed_date_raises
              (user_payload "2024-03-04" "20190728-070809") eq_refl)
    as (e & He & Hcommand).
  exists e. split; [exact He|].
  apply (Hcommand _ bot room alice "!user alice" "user" "alice" []);
    [discriminate | reflexivity | reflexivity | reflexivity
    | reflexivity | reflexivity].
Defined.

(** C10 as the specification words it does not hold: [strptime] takes a
    month and a day of one digit each, so the stamp "202434-1", whose date
    portion is no YYYYMMDD, is shown as March 04, 2024. *)
Lemma one_digit_month_and_day_are_parsed :
  ~ raises_on_every_malformed_stamp.
Proof.
  intros Hclaim.
  destruct (Hclaim (user_payload "202434-1" "20190728-070809")
                   (user_statistics "202434-1" "20190728-070809")
                   "last" "202434-1")
    as [e He]; [apply list_elem_of_here | reflexivity | reflexivity
               | reflexivity |].
  vm_compute in He. discriminate He.
Qed.

(** ** More conversations *)

Lemma own_and_unprefixed_messages_are_ignored_witness :
  message_callback timing_out bot room bot "!help" = ([], Ok tt)
  /\ message_callback timing_out bot room alice "help!" = ([], Ok tt).
Proof.
  split.
  - apply (own_and_unprefixed_messages_are_ignored timing_out bot room bot
             "!help"). by left.
  - apply (own_and_unprefixed_messages_are_ignored timing_out bot room alice
             "help!"). by right.
Defined.

Lemma verb_case_and_spacing_are_immaterial_witness :
  message_callback groups_only bot room alice "!UserRank   Foo   Bar "
  = message_callback groups_only bot room alice "!userrank Foo Bar".
Proof.
  apply (verb_case_and_spacing_are_immaterial groups_only bot room alice
           "!UserRank   Foo   Bar " "!userrank Foo Bar"
           "UserRank" "userrank" ["Foo"; "Bar"]); reflexivity.
Defined.

Lemma user_reads_one_argument_witness :
  message_callback (replying 404 PNone) bot room alice "!user alice and bob"
  = message_callback (replying 404 PNone) bot room alice "!user alice".
Proof.
  apply (user_reads_one_argument (replying 404 PNone) bot room alice
           "!user alice and bob" "!user alice" "user" "user" "alice"
           ["and"; "bob"]); reflexivity.
Defined.

Lemma help_sends_the_command_list_witness :
  message_callback timing_out bot room alice "!HELP me"
  = ([Typing room; Send room (PStr get_help_message)], Ok tt).
Proof.
  apply (help_sends_the_command_list timing_out bot room alice "!HELP me"
           "HELP" ["me"]); [discriminate | reflexivity..].
Defined.

Lemma client_failure_is_relayed_witness :
  message_callback (replying 503 PNone) bot room alice "!monthly"
  = ([Typing room; Send room (PStr "HTTP error 503")], Ok tt).
Proof.
  apply (client_failure_is_relayed (replying 503 PNone) bot room alice
           "!monthly" "monthly" "HTTP error 503" []);
    [discriminate | reflexivity..].
Defined.

Lemma user_command_on_404_witness :
  message_callback (replying 404 PNone) bot room alice "!user alice"
  = ([Typing room; Send room (PStr "User not found.")], Ok tt).
Proof.
  apply (user_command_on_404 (replying 404 PNone) bot room alice
           "!user alice" "user" "alice" []
           {| status := 404; json := Ok PNone |});
    [discriminate | reflexivity..].
Defined.

Lemma userrank_member_listing_unavailable_witness :
  message_callback groups_only bot room alice "!userrank Foo Bar"
  = ([Typing room; Send room (PStr "Failed to fetch group data.")], Ok tt).
Proof.
  apply (userrank_member_listing_unavailable groups_only bot room alice
           "!userrank Foo Bar" "userrank"
           (member_listing_url "20150607-00042") ["Foo"; "Bar"]
           foo_bar_resolved);
    [discriminate | reflexivity | reflexivity | reflexivity | discriminate
    | reflexivity | reflexivity | reflexivity |].
  left. exists (ClientConnectionError "Cannot connect to host"). by split.
Defined.

Lemma userrank_sends_the_member_ranking_witness :
  message_callback groups_and_members bot room alice "!userrank foo  bar"
  = ([Typing room;
      Send room
        (PStr ("**User Rankings for 'foo bar':**" +:+ nl
               +:+ "1st: erin | Total: 90,000" +:+ nl
               +:+ "2nd: grace | Total: 70,000" +:+ nl
               +:+ "3rd: heidi | Total: 60,000" +:+ nl
               +:+ "4th: ivan | Total: 50,000" +:+ nl
               +:+ "5th: judy | Total: 40,000" +:+ nl
               +:+ "6th: mallory | Total: 30,000" +:+ nl
               +:+ "7th: niaj | Total: 20,000" +:+ nl
               +:+ "8th: olivia | Total: 10,000" +:+ nl
               +:+ "9th: peggy | Total: 1,234" +:+ nl))],
     Ok tt).
Proof.
  apply (userrank_sends_the_member_ranking groups_and_members bot room alice
           "!userrank foo  bar" "userrank"
           (member_listing_url "20150607-00042") _ ["foo"; "bar"]
           foo_bar_resolved (ok_json (PDict members_body)) members_body);
    [discriminate | reflexivity | reflexivity | reflexivity | discriminate
    | reflexivity | reflexivity | reflexivity | reflexivity | reflexivity
    | reflexivity | | reflexivity].
  intros Hempty. apply (f_equal (fun m => m !! "users")) in Hempty.
  discriminate Hempty.
Defined.

(** ** More answers of the statistics service *)

Lemma user_stats_success_is_a_matching_profile_witness :
  status (ok_json (PDict bare_profile)) = 200
  /\ exists (d st : gmap string pyval) (s : pyval) (u : string),
       json (ok_json (PDict bare_profile)) = Ok (PDict d)
       /\ d !! "success" = Some s /\ py_truthy s = true
       /\ d !! "statistics" = Some (PDict st)
       /\ st !! "userName" = Some (PStr u)
       /\ lower u = lower "alice".
Proof.
  apply (user_stats_success_is_a_matching_profile
           (replying 200 (PDict bare_profile)) "alice"
           (ok_json (PDict bare_profile)) (PDict bare_profile));
    reflexivity.
Defined.

Lemma client_catches_every_Exception_witness :
  is_Exception CancelledError = false.
Proof.
  apply (client_catches_every_Exception cancelled "alice" "Foo Bar"
           (member_listing_url "20150607-00042") CancelledError).
  left. reflexivity.
Defined.

Lemma http_status_is_reported_witness :
  fetch_wigle_user_stats (replying 404 PNone) "alice"
  = Ok (failure "User not found.")
  /\ fetch_wigle_group_rank (replying 404 PNone)
     = Ok (failure "HTTP error 404")
  /\ fetch_wigle_id (replying 404 PNone) "Foo Bar"
     = Ok (failure "HTTP error 404")
  /\ fetch_wigle_alltime_rank (replying 404 PNone)
     = Ok (failure "HTTP error 404")
  /\ fetch_wigle_month_rank (replying 404 PNone)
     = Ok (failure "HTTP error 404")
  /\ fetch_user_rank (replying 404 PNone)
       (member_listing_url "20150607-00042") = Ok PNone.
Proof.
  apply (http_status_is_reported (replying 404 PNone) 404 "alice" "Foo Bar"
           (member_listing_url "20150607-00042")); [discriminate|].
  intros req. by eexists.
Defined.

Lemma matching_profile_gets_a_fresh_badge_witness :
  fetch_wigle_user_stats
    (replying 200 (PDict (badged_profile (PStr "https://wigle.net/b.png"))))
    "alice"
  = Ok (PDict (<["imageBadgeUrl" :=
                   PStr "https://wigle.net/b.png?nocache=1700000000"]>
               (badged_profile (PStr "https://wigle.net/b.png")))).
Proof.
  apply (matching_profile_gets_a_fresh_badge
           (replying 200 (PDict (badged_profile (PStr "https://wigle.net/b.png"))))
           "alice" (badged_profile (PStr "https://wigle.net/b.png"))
           (list_to_map [("userName", PStr "Alice")]) (PBool true) "Alice"
           (Some "https://wigle.net/b.png"));
    [apply answers_replying | reflexivity..].
Defined.


Lemma group_list_is_returned_unchanged_witness :
  fetch_wigle_group_rank (replying 200 (PDict group_list_body))
  = Ok (PDict group_list_body)
  /\ fetch_wigle_group_rank (replying 200 (PDict bare_profile))
     = Ok (failure "No group data available.").
Proof.
  split.
  - apply (group_list_is_returned_unchanged
             (replying 200 (PDict group_list_body)) group_list_body).
    apply answers_replying.
  - apply (group_list_is_returned_unchanged
             (replying 200 (PDict bare_profile)) bare_profile).
    apply answers_replying.
Defined.

Lemma group_list_failure_is_passed_on_witness :
  fetch_wigle_id (replying 200 (PDict too_many_queries)) "Foo Bar"
  = Ok (failure "too many queries today")
  /\ fetch_wigle_id (replying 200 (PDict ∅)) "Foo Bar"
     = Ok (failure (exn_str (KeyError "message"))).
Proof.
  split.
  - apply (group_list_failure_is_passed_on
             (replying 200 (PDict too_many_queries)) "Foo Bar"
             too_many_queries); [apply answers_replying | reflexivity].
  - exact (group_list_failure_is_passed_on
             (replying 200 (PDict ∅)) "Foo Bar" ∅ (answers_replying _ _) I).
Defined.

Lemma missing_groups_is_no_group_witness :
  fetch_wigle_id (replying 200 (PDict bare_profile)) "Foo Bar"
  = Ok (failure "No group named 'Foo Bar' found.").
Proof.
  apply (missing_groups_is_no_group
           (replying 200 (PDict bare_profile)) "Foo Bar" bare_profile
           (PBool true)); [apply answers_replying | reflexivity..].
Defined.

Lemma standings_entry_without_userName_witness :
  fetch_wigle_alltime_rank (replying 200 (PDict nameless_standings))
  = Ok (failure (exn_str (KeyError "userName"))).
Proof.
  apply (standings_entry_without_userName
           (replying 200 (PDict nameless_standings)) Discovered
           nameless_standings (PBool true)
           [standing "carol" 1234567;
            dict [("discoveredWiFiGPS", PInt 99)];
            standing "dave" 4321]);
    [apply answers_replying | reflexivity | reflexivity | reflexivity | |].
  - repeat constructor; by eexists.
  - apply Exists_cons_tl, Exists_cons_hd. reflexivity.
Defined.

Lemma standings_without_results_witness :
  fetch_wigle_month_rank (replying 200 (PDict too_many_queries))
  = Ok (failure "No rank data available.").
Proof.
  apply (standings_without_results
           (replying 200 (PDict too_many_queries)) MonthCount
           too_many_queries); [apply answers_replying|].
  left. reflexivity.
Defined.

Lemma cancellation_is_not_swallowed_witness :
  fetch_wigle_user_stats cancelled "alice" = Raise CancelledError
  /\ fetch_wigle_group_rank cancelled = Raise CancelledError
  /\ fetch_wigle_id cancelled "Foo Bar" = Raise CancelledError
  /\ fetch_wigle_alltime_rank cancelled = Raise CancelledError
  /\ fetch_wigle_month_rank cancelled = Raise CancelledError
  /\ fetch_user_rank cancelled (member_listing_url "20150607-00042")
     = Raise CancelledError.
Proof.
  apply (cancellation_is_not_swallowed cancelled CancelledError);
    [reflexivity | by intros req].
Defined.

(** ** More rankings and messages *)



Lemma member_without_status_spoils_the_ranking_witness :
  format_user_rankings
    (PList (ten_members ++ [dict [("username", PStr "quentin")]]))
    "Foo Bar"
  = Raise (KeyError "status").
Proof.
  apply (member_without_status_spoils_the_ranking ten_members
           (dict [("username", PStr "quentin")]) [] (KeyError "status")
           "Foo Bar"); [|reflexivity].
  repeat constructor; by eexists.
Defined.

Lemma locked_members_do_not_count_witness :
  format_user_rankings (PList ten_members) "Foo Bar"
  = format_user_rankings
      (PList (List.filter (fun u => negb (locked u)) ten_members)) "Foo Bar".
Proof.
  apply (locked_members_do_not_count ten_members "Foo Bar").
  repeat constructor; by eexists.
Defined.

Lemma matching_profile_without_user_item_witness :
  message_callback (replying 200 (PDict bare_profile)) bot room alice
                   "!user alice"
  = ([Typing room], Raise (KeyError "user")).
Proof.
  apply (matching_profile_without_user_item
           (replying 200 (PDict bare_profile)) bot room alice "!user alice"
           "user" "alice" [] bare_profile
           (list_to_map [("userName", PStr "ALICE")]) (PBool true) "ALICE");
    [discriminate | reflexivity | reflexivity | reflexivity
    | apply answers_replying | reflexivity..].
Defined.

(** ** The life of the bot *)

Lemma refused_login_never_syncs_witness :
  start refusing_host = ([MakeDirs "store/"; Login], Ok tt).
Proof.
  apply (refused_login_never_syncs refusing_host "M_FORBIDDEN");
    reflexivity.
Defined.
